(** * lv_port_linux: start-up of the LVGL simulator (src/main.c)

    A shallow embedding of [configure_simulator] and [main]: the two
    functions that parse the command line and the environment into the
    global [settings], validate the back-end chosen with [-b], bring the
    back-end(s) up and enter the run loop.

    The process is modelled as a computation over an explicit program
    state (the globals [settings] and [selected_backend]) that records
    every call to an external collaborator in a chronological trace and
    that may stop early, the way [exit] and [die] stop the C program. *)

From Stdlib Require Import ZArith List String Ascii Bool Lia.
From Stdlib Require Decimal DecimalString DecimalPos.
Import ListNotations.

Local Open Scope string_scope.
Local Open Scope list_scope.
Local Open Scope Z_scope.

(** ** The C library, as far as [main.c] uses it *)

Module Libc.

Definition EXIT_SUCCESS : Z := 0.
Definition EXIT_FAILURE : Z := 1.

(** *** [getenv]

    The environment is the [environ] array, an ordered list of
    NAME=value entries; [getenv] returns the value of the first entry
    with the given name, or NULL ([None]). *)

Definition environ := list (string * string).

Fixpoint getenv (env : environ) (name : string) : option string :=
  match env with
  | [] => None
  | (n, v) :: env' => if String.eqb n name then Some v else getenv env' name
  end.

(** *** [atoi]

    [atoi s] is [(int) strtol (s, NULL, 10)]: leading white space is
    skipped, one optional sign is read, then the longest run of decimal
    digits; anything after it is ignored and no digits at all give 0.
    [strtol] saturates at the bounds of [long] (64 bits here) and the
    conversion to [int] keeps the low 32 bits. *)

Definition isspace (c : ascii) : bool :=
  let n := Z.of_N (N_of_ascii c) in
  (n =? 32) || ((9 <=? n) && (n <=? 13)).

Definition digit_of (c : ascii) : option Z :=
  let n := Z.of_N (N_of_ascii c) in
  if (48 <=? n) && (n <=? 57) then Some (n - 48) else None.

Fixpoint skip_space (s : string) : string :=
  match s with
  | String c s' => if isspace c then skip_space s' else s
  | EmptyString => s
  end.

Fixpoint digits (acc : Z) (s : string) : Z :=
  match s with
  | String c s' =>
      match digit_of c with
      | Some d => digits (10 * acc + d) s'
      | None => acc
      end
  | EmptyString => acc
  end.

Definition LONG_MAX : Z := 2 ^ 63 - 1.
Definition LONG_MIN : Z := - 2 ^ 63.

Definition strtol (s : string) : Z :=
  let s := skip_space s in
  let '(neg, s) :=
    match s with
    | String "-" s' => (true, s')
    | String "+" s' => (false, s')
    | _ => (false, s)
    end in
  let v := digits 0 s in
  Z.max LONG_MIN (Z.min LONG_MAX (if neg then - v else v)).

(** Conversion of a [long] to a 32-bit [int]: the value modulo 2^32,
    read as a signed number. *)
Definition to_int (z : Z) : Z := (z + 2 ^ 31) mod 2 ^ 32 - 2 ^ 31.

Definition atoi (s : string) : Z := to_int (strtol s).

Arguments atoi : simpl never.

(** *** [getopt]

    What one call of [getopt] hands back.  [GotOpt c a]: the option
    character [c] of the option string was found, [optarg] is [a].
    [GotInvalid c]: [c] is not an option character ([optopt] is [c]).
    [GotMissing c]: [c] takes an argument and the command line ends
    before it ([optopt] is [c]). *)

Inductive getopt_ret : Type :=
| GotOpt (c : ascii) (optarg : option string)
| GotInvalid (c : ascii)
| GotMissing (c : ascii).

Inductive optkind : Type := NoArg | ReqArg | OptArg.

(** The entry of [optstring] for [c]: the first occurrence of [c]
    decides, one colon after it asks for an argument, two colons make
    the argument optional. *)
Fixpoint find_opt (c : ascii) (optstring : string) : option optkind :=
  match optstring with
  | EmptyString => None
  | String d rest =>
      if Ascii.eqb c d then
        Some match rest with
             | String ":" (String ":" _) => OptArg
             | String ":" _ => ReqArg
             | _ => NoArg
             end
      else find_opt c rest
  end.

(** A colon or a semicolon is never an option character. *)
Definition lookup_opt (optstring : string) (c : ascii) : option optkind :=
  if Ascii.eqb c ":" || Ascii.eqb c ";" then None else find_opt c optstring.

(** The value [getopt] returns: the option character itself, ['?'] for
    an invalid option, and for a missing argument [':'] when the option
    string starts with a colon and ['?'] when it does not. *)
Definition getopt_value (optstring : string) (r : getopt_ret) : ascii :=
  match r with
  | GotOpt c _ => c
  | GotInvalid _ => "?"
  | GotMissing _ =>
      match optstring with
      | String ":" _ => ":"
      | _ => "?"
      end
  end%char.

Definition getopt_optarg (r : getopt_ret) : option string :=
  match r with
  | GotOpt _ a => a
  | _ => None
  end.

Definition getopt_optopt (r : getopt_ret) : ascii :=
  match r with
  | GotOpt c _ => c
  | GotInvalid c => c
  | GotMissing c => c
  end.

(** The option characters packed behind one dash ("-Vh", "-W800").
    [next] is the command-line word after this one; the boolean
    result says whether an option took it as its argument. *)
Fixpoint scan_cluster (optstring : string) (cl : string) (next : option string)
  : list getopt_ret * bool :=
  match cl with
  | EmptyString => ([], false)
  | String c cs =>
      match lookup_opt optstring c with
      | None =>
          let '(rs, used) := scan_cluster optstring cs next in
          (GotInvalid c :: rs, used)
      | Some NoArg =>
          let '(rs, used) := scan_cluster optstring cs next in
          (GotOpt c None :: rs, used)
      | Some ReqArg =>
          match cs, next with
          | String _ _, _ => ([GotOpt c (Some cs)], false)
          | EmptyString, Some a => ([GotOpt c (Some a)], true)
          | EmptyString, None => ([GotMissing c], false)
          end
      | Some OptArg =>
          match cs with
          | String _ _ => ([GotOpt c (Some cs)], false)
          | EmptyString => ([GotOpt c None], false)
          end
      end
  end.

(** The successive results of [getopt] on the words after [argv[0]],
    up to the call that returns -1.  The word "--" ends the options.
    A word that is not an option (no leading dash, or a dash alone)
    ends them too when [posix] holds; otherwise it is stepped over, as
    GNU [getopt] does when it permutes [argv]. *)
Fixpoint getopt_scan (posix : bool) (optstring : string) (args : list string)
  : list getopt_ret :=
  match args with
  | [] => []
  | a :: rest =>
      match a with
      | String "-" (String c cs as cl) =>
          if String.eqb a "--" then []
          else
            match rest with
            | [] => fst (scan_cluster optstring cl None)
            | nxt :: rest' =>
                let '(rs, used) := scan_cluster optstring cl (Some nxt) in
                rs ++ (if used then getopt_scan posix optstring rest'
                       else getopt_scan posix optstring rest)
            end
      | _ => if posix then [] else getopt_scan posix optstring rest
      end
  end.

(** GNU [getopt] keeps the POSIX order when POSIXLY_CORRECT is set. *)
Definition posixly_correct (env : environ) : bool :=
  match getenv env "POSIXLY_CORRECT" with
  | Some _ => true
  | None => false
  end.

End Libc.

Import Libc.

(** ** Observable events and program state *)

(** An argument of a printf-style call. *)
Inductive fmt_arg : Type :=
| ArgInt (z : Z)
| ArgStr (s : string)
| ArgChar (c : ascii).

(** The calls that leave the program, in the order they are made.  A
    format string is kept as it is written in the source.  The result
    of [driver_backends_init_backend] is recorded with the call. *)
Inductive event : Type :=
| EvRegister                                        (* driver_backends_register () *)
| EvIsSupported (name : string)                     (* driver_backends_is_supported (name) *)
| EvPrintSupported                                  (* driver_backends_print_supported () *)
| EvInitBackend (name : option string) (res : Z)    (* driver_backends_init_backend (name) *)
| EvRunLoop                                         (* driver_backends_run_loop () *)
| EvLvInit                                          (* lv_init () *)
| EvScrollTest                                      (* lv_scroll_test () *)
| EvStdout (fmt : string) (args : list fmt_arg)     (* fprintf (stdout, ...) *)
| EvGetoptError (r : getopt_ret)                    (* the message getopt itself writes to stderr *)
| EvDie (fmt : string) (args : list fmt_arg).       (* die (...) *)

(** Modelled from the spec: the type [simulator_settings_t] of
    src/lib/simulator_settings.h, which is not among the sources at
    hand.  The spec gives the window width and height as integers; they
    hold the [int] that [atoi] returns.  Only the two fields [main.c]
    touches are kept. *)
Record simulator_settings_t : Type := mk_settings {
  window_width : Z;
  window_height : Z
}.

(** The globals [settings] and [selected_backend] (NULL is [None]), and
    the events so far, oldest first. *)
Record state : Type := mk_state {
  settings : simulator_settings_t;
  selected_backend : option string;
  trace : list event
}.

Definition initial_state (s0 : simulator_settings_t) : state :=
  {| settings := s0; selected_backend := None; trace := [] |}.

(** How a computation ends: it returns a value, the process has ended
    with an exit status, or a NULL pointer was handed to a function that
    reads a string (undefined behaviour). *)
Inductive outcome (A : Type) : Type :=
| Normal (a : A)
| Exited (status : Z)
| Fault.

Arguments Normal {A} a.
Arguments Exited {A} status.
Arguments Fault {A}.

Definition M (A : Type) : Type := state -> outcome A * state.

Definition ret {A} (a : A) : M A := fun s => (Normal a, s).

Definition bind {A B} (m : M A) (k : A -> M B) : M B :=
  fun s =>
    match m s with
    | (Normal a, s') => k a s'
    | (Exited n, s') => (Exited n, s')
    | (Fault, s') => (Fault, s')
    end.

Declare Scope prog_scope.
Delimit Scope prog_scope with prog.
Notation "x <- m ;; k" := (bind m (fun x => k))
  (at level 100, m at next level, right associativity) : prog_scope.
Notation "m ;; k" := (bind m (fun _ => k))
  (at level 100, right associativity) : prog_scope.
Local Open Scope prog_scope.

Definition emit (e : event) : M unit :=
  fun s => (Normal tt, {| settings := settings s;
                          selected_backend := selected_backend s;
                          trace := trace s ++ [e] |}).

Definition exit {A} (status : Z) : M A := fun s => (Exited status, s).

Definition fault {A} : M A := fun s => (Fault, s).

Definition set_window_width (v : Z) : M unit :=
  fun s => (Normal tt, {| settings := {| window_width := v;
                                         window_height := window_height (settings s) |};
                          selected_backend := selected_backend s;
                          trace := trace s |}).

Definition set_window_height (v : Z) : M unit :=
  fun s => (Normal tt, {| settings := {| window_width := window_width (settings s);
                                         window_height := v |};
                          selected_backend := selected_backend s;
                          trace := trace s |}).

Definition set_selected_backend (b : option string) : M unit :=
  fun s => (Normal tt, {| settings := settings s;
                          selected_backend := b;
                          trace := trace s |}).

Definition get_selected_backend : M (option string) :=
  fun s => (Normal (selected_backend s), s).

Definition get_trace : M (list event) :=
  fun s => (Normal (trace s), s).

(** Modelled from the spec: [die] of src/lib/simulator_util, which is not
    part of the sources at hand.  It reports the message and ends the
    process with a non-zero status. *)
Definition die {A} (fmt : string) (args : list fmt_arg) : M A :=
  emit (EvDie fmt args) ;; exit EXIT_FAILURE.

(** ** What the build and the driver library supply *)

(** The macros of the LVGL configuration that [main.c] reads. *)
Record lv_conf : Type := mk_lv_conf {
  LV_USE_EVDEV : bool;
  LVGL_VERSION_MAJOR : Z;
  LVGL_VERSION_MINOR : Z;
  LVGL_VERSION_PATCH : Z;
  LVGL_VERSION_INFO : string
}.

(** The answers of the driver library (src/lib/driver_backends): the
    value [driver_backends_is_supported] returns for a name, and the
    value [driver_backends_init_backend] returns for a name (NULL asks
    for the default back-end) given what has happened so far. *)
Record driver_backends : Type := mk_driver_backends {
  is_supported_result : string -> Z;
  init_backend_result : list event -> option string -> Z
}.

Section Simulator.

Variable conf : lv_conf.
Variable drv : driver_backends.

Definition driver_backends_register : M unit := emit EvRegister.

Definition driver_backends_is_supported (name : string) : M Z :=
  emit (EvIsSupported name) ;; ret (is_supported_result drv name).

Definition driver_backends_print_supported : M unit := emit EvPrintSupported.

Definition driver_backends_init_backend (name : option string) : M Z :=
  t <- get_trace ;;
  let res := init_backend_result drv t name in
  emit (EvInitBackend name res) ;; ret res.

Definition driver_backends_run_loop : M unit := emit EvRunLoop.

Definition lv_init : M unit := emit EvLvInit.

Definition lv_scroll_test : M unit := emit EvScrollTest.

(** *** main.c *)

Definition print_lvgl_version : M unit :=
  emit (EvStdout "%d.%d.%d-%s\n"
          [ArgInt (LVGL_VERSION_MAJOR conf);
           ArgInt (LVGL_VERSION_MINOR conf);
           ArgInt (LVGL_VERSION_PATCH conf);
           ArgStr (LVGL_VERSION_INFO conf)]).

Definition print_usage : M unit :=
  emit (EvStdout "\nlvglsim [-V] [-B] [-b backend_name] [-W window_width] [-H window_height]\n\n" []) ;;
  emit (EvStdout "-V print LVGL version\n" []) ;;
  emit (EvStdout "-B list supported backends\n" []).

Definition optstring : string := "b:fmW:H:BVh".

(** One call of [getopt]: an invalid option and a missing argument are
    reported on stderr by [getopt] itself ([opterr] is left at 1). *)
Definition getopt_report (r : getopt_ret) : M unit :=
  match r with
  | GotOpt _ _ => ret tt
  | _ => emit (EvGetoptError r)
  end.

(** The body of the [switch (opt)]. *)
Definition handle_option (r : getopt_ret) : M unit :=
  let opt := getopt_value optstring r in
  let optarg := getopt_optarg r in
  let optopt := getopt_optopt r in
  if Ascii.eqb opt "h" then
    print_usage ;; exit EXIT_SUCCESS
  else if Ascii.eqb opt "V" then
    print_lvgl_version ;; exit EXIT_SUCCESS
  else if Ascii.eqb opt "B" then
    driver_backends_print_supported ;; exit EXIT_SUCCESS
  else if Ascii.eqb opt "b" then
    match optarg with
    | None => fault
    | Some name =>
        sup <- driver_backends_is_supported name ;;
        (if sup =? 0 then die "error no such backend: %s\n" [ArgStr name]
         else ret tt) ;;
        set_selected_backend (Some name)
    end
  else if Ascii.eqb opt "W" then
    match optarg with
    | None => fault
    | Some a => set_window_width (atoi a)
    end
  else if Ascii.eqb opt "H" then
    match optarg with
    | None => fault
    | Some a => set_window_height (atoi a)
    end
  else if Ascii.eqb opt ":" then
    print_usage ;; die "Option -%c requires an argument.\n" [ArgChar optopt]
  else if Ascii.eqb opt "?" then
    print_usage ;; die "Unknown option -%c.\n" [ArgChar optopt]
  else ret tt.

(** The [while ((opt = getopt (...)) != -1)] loop, over the results
    [getopt] will give. *)
Fixpoint parse_options (rs : list getopt_ret) : M unit :=
  match rs with
  | [] => ret tt
  | r :: rs' =>
      getopt_report r ;;
      handle_option r ;;
      parse_options rs'
  end.

Definition command_line_options (env : environ) (argv : list string)
  : list getopt_ret :=
  getopt_scan (posixly_correct env) optstring (tl argv).

Definition configure_simulator (env : environ) (argv : list string) : M unit :=
  set_selected_backend None ;;
  driver_backends_register ;;
  let env_w := getenv env "LV_SIM_WINDOW_WIDTH" in
  let env_h := getenv env "LV_SIM_WINDOW_HEIGHT" in
  set_window_width (atoi (match env_w with Some v => v | None => "800" end)) ;;
  set_window_height (atoi (match env_h with Some v => v | None => "480" end)) ;;
  parse_options (command_line_options env argv).

Definition main (env : environ) (argv : list string) : M Z :=
  configure_simulator env argv ;;
  lv_init ;;
  sel <- get_selected_backend ;;
  r <- driver_backends_init_backend sel ;;
  (if r =? -1 then die "Failed to initialize display backend" [] else ret tt) ;;
  (if LV_USE_EVDEV conf then
     r' <- driver_backends_init_backend (Some "EVDEV") ;;
     if r' =? -1 then die "Failed to initialize evdev" [] else ret tt
   else ret tt) ;;
  lv_scroll_test ;;
  driver_backends_run_loop ;;
  ret 0.

End Simulator.

(** ** Vocabulary of the properties *)

(** The events of the start-up that follows [configure_simulator] in
    [main]: toolkit initialisation, back-end initialisation, the demo
    screen and the run loop. *)
Definition is_startup_event (e : event) : bool :=
  match e with
  | EvLvInit | EvInitBackend _ _ | EvScrollTest | EvRunLoop => true
  | _ => false
  end.

(** The operations of the back-end registry other than the registration
    itself. *)
Definition is_registry_op (e : event) : bool :=
  match e with
  | EvIsSupported _ | EvPrintSupported | EvInitBackend _ _ | EvRunLoop => true
  | _ => false
  end.

(** The calls of [driver_backends_init_backend] in a trace, in order,
    each with the name passed and the value returned. *)
Fixpoint init_calls (t : list event) : list (option string * Z) :=
  match t with
  | [] => []
  | EvInitBackend name res :: t' => (name, res) :: init_calls t'
  | _ :: t' => init_calls t'
  end.

(** The names handed to [driver_backends_is_supported] in a trace. *)
Fixpoint validated_names (t : list event) : list string :=
  match t with
  | [] => []
  | EvIsSupported name :: t' => name :: validated_names t'
  | _ :: t' => validated_names t'
  end.

(** A flag that ends the process where it stands: [-h], [-V], [-B], a
    flag [getopt] rejects, and [-b] with a name the registry does not
    know. *)
Definition ends_process (drv : driver_backends) (r : getopt_ret) : bool :=
  match r with
  | GotInvalid _ | GotMissing _ => true
  | GotOpt c a =>
      Ascii.eqb c "h" || Ascii.eqb c "V" || Ascii.eqb c "B" ||
      (Ascii.eqb c "b" &&
       match a with
       | Some name => is_supported_result drv name =? 0
       | None => false
       end)
  end.

(** The arguments given to the flag [-c] among [rs], in order. *)
Fixpoint flag_args (c : ascii) (rs : list getopt_ret) : list string :=
  match rs with
  | [] => []
  | GotOpt d (Some a) :: rs' =>
      if Ascii.eqb d c then a :: flag_args c rs' else flag_args c rs'
  | _ :: rs' => flag_args c rs'
  end.

(** The trace holds no event of the start-up. *)
Definition configuring (t : list event) : Prop :=
  forall e, In e t -> is_startup_event e = false.

(** The argument of the last flag [-c] among [rs], if there is one. *)
Fixpoint last_flag_arg (c : ascii) (rs : list getopt_ret) : option string :=
  match rs with
  | [] => None
  | r :: rs' =>
      match last_flag_arg c rs' with
      | Some a => Some a
      | None =>
          match r with
          | GotOpt d (Some a) => if Ascii.eqb d c then Some a else None
          | _ => None
          end
      end
  end.

(** The priority order of the specification for one window dimension:
    the flag if present, otherwise the environment variable if set,
    otherwise the built-in default. *)
Definition by_priority (flag env_value : option string) (default : Z) : Z :=
  match flag, env_value with
  | Some a, _ => atoi a
  | None, Some v => atoi v
  | None, None => default
  end.

(** What [print_usage] writes. *)
Definition usage_events : list event :=
  [EvStdout "\nlvglsim [-V] [-B] [-b backend_name] [-W window_width] [-H window_height]\n\n" [];
   EvStdout "-V print LVGL version\n" [];
   EvStdout "-B list supported backends\n" []].

(** A string of decimal digits only. *)
Fixpoint all_digits (s : string) : bool :=
  match s with
  | EmptyString => true
  | String c s' =>
      match digit_of c with
      | Some _ => all_digits s'
      | None => false
      end
  end.

(** The globals and the trace when the option loop is entered. *)
Definition at_loop_entry (env : environ) (s : state) : state :=
  {| settings :=
       {| window_width :=
            atoi (match getenv env "LV_SIM_WINDOW_WIDTH" with
                  | Some v => v
                  | None => "800"
                  end);
          window_height :=
            atoi (match getenv env "LV_SIM_WINDOW_HEIGHT" with
                  | Some v => v
                  | None => "480"
                  end) |};
     selected_backend := None;
     trace := trace s ++ [EvRegister] |}.

(** The four ways the start-up after [configure_simulator] can go, as
    the events it leaves and the way it ends.  [evdev] is LV_USE_EVDEV
    and [sel] the selected back-end. *)
Inductive startup_shape (evdev : bool) (sel : option string)
  : list event -> outcome Z -> Prop :=
| primary_fails :
    startup_shape evdev sel
      [EvLvInit; EvInitBackend sel (-1);
       EvDie "Failed to initialize display backend" []]
      (Exited EXIT_FAILURE)
| evdev_fails r1 :
    evdev = true -> r1 <> -1 ->
    startup_shape evdev sel
      [EvLvInit; EvInitBackend sel r1; EvInitBackend (Some "EVDEV") (-1);
       EvDie "Failed to initialize evdev" []]
      (Exited EXIT_FAILURE)
| runs_with_evdev r1 r2 :
    evdev = true -> r1 <> -1 -> r2 <> -1 ->
    startup_shape evdev sel
      [EvLvInit; EvInitBackend sel r1; EvInitBackend (Some "EVDEV") r2;
       EvScrollTest; EvRunLoop]
      (Normal 0)
| runs_without_evdev r1 :
    evdev = false -> r1 <> -1 ->
    startup_shape evdev sel
      [EvLvInit; EvInitBackend sel r1; EvScrollTest; EvRunLoop]
      (Normal 0).

(** The command-line flags the option string "b:fmW:H:BVh" admits, as a
    view of the results of [getopt]. *)
Inductive option_view : getopt_ret -> Prop :=
| view_h : option_view (GotOpt "h" None)
| view_V : option_view (GotOpt "V" None)
| view_B : option_view (GotOpt "B" None)
| view_f : option_view (GotOpt "f" None)
| view_m : option_view (GotOpt "m" None)
| view_b name : option_view (GotOpt "b" (Some name))
| view_W a : option_view (GotOpt "W" (Some a))
| view_H a : option_view (GotOpt "H" (Some a))
| view_invalid c :
    ~ In c ["b"; "f"; "m"; "W"; "H"; "B"; "V"; "h"]%char ->
    option_view (GotInvalid c)
| view_missing c :
    In c ["b"; "W"; "H"]%char ->
    option_view (GotMissing c).

(** A driver library that knows the single back-end SDL and whose
    initialisations succeed, and a build with evdev support. *)
Definition sdl_only : driver_backends :=
  {| is_supported_result := fun name => if String.eqb name "SDL" then 1 else 0;
     init_backend_result := fun _ _ => 0 |}.

Definition conf_evdev : lv_conf :=
  {| LV_USE_EVDEV := true;
     LVGL_VERSION_MAJOR := 9; LVGL_VERSION_MINOR := 2; LVGL_VERSION_PATCH := 0;
     LVGL_VERSION_INFO := "dev" |}.

Definition zero_settings : simulator_settings_t :=
  {| window_width := 0; window_height := 0 |}.

(** The exit status of the process when it ends at the flag [r]: that of
    [exit (EXIT_SUCCESS)] for [-h], [-V] and [-B], that of [die] for
    the others. *)
Definition exit_status_of (r : getopt_ret) : Z :=
  match r with
  | GotOpt c _ =>
      if Ascii.eqb c "h" || Ascii.eqb c "V" || Ascii.eqb c "B"
      then EXIT_SUCCESS else EXIT_FAILURE
  | _ => EXIT_FAILURE
  end.

(** The format strings of the calls of [die] in a trace, in order. *)
Fixpoint fatal_messages (t : list event) : list string :=
  match t with
  | [] => []
  | EvDie fmt _ :: t' => fmt :: fatal_messages t'
  | _ :: t' => fatal_messages t'
  end.

(** The messages [main.c] can die with. *)
Definition reachable_fatal_messages : list string :=
  ["error no such backend: %s\n";
   "Unknown option -%c.\n";
   "Failed to initialize display backend";
   "Failed to initialize evdev"].

(** The decimal numeral of an integer, as [printf ("%d")] writes it. *)
Definition decimal (n : Z) : string :=
  DecimalString.NilZero.string_of_int (Z.to_int n).

(** The string that decides a window dimension is [a]: the argument of
    the last flag, or without a flag the value of the environment
    variable. *)
Definition in_force (flag env_value : option string) (a : string) : Prop :=
  flag = Some a \/ (flag = None /\ env_value = Some a).

(** A string in which [atoi] finds no number: it is empty, or it starts
    with a character that is neither white space, nor a sign, nor a
    digit. *)
Definition not_a_number (a : string) : bool :=
  match a with
  | EmptyString => true
  | String c _ =>
      negb (isspace c) && negb (Ascii.eqb c "+") && negb (Ascii.eqb c "-") &&
      match digit_of c with
      | Some _ => false
      | None => true
      end
  end.

(** ** The demo screen ([lv_scroll_test]) *)

Module Demo.

(** An LVGL object as [lv_scroll_test] sees it: the active screen, which
    exists when the function is called, or an object a create function
    has returned, numbered in the order of creation. *)
Inductive lv_obj : Type :=
| Screen
| Obj (id : nat).

(** An argument of an LVGL call: a number, a string, a constant or a
    descriptor of LVGL named as in the source, NULL, a colour made by
    [lv_color_hex] or by [lv_color_make]. *)
Inductive lv_arg : Type :=
| AInt (z : Z)
| AStr (s : string)
| ASym (name : string)
| ANull
| AColorHex (rgb : Z)
| AColorMake (r g b : Z).

(** A call into LVGL: the creation of an object under a parent, with
    the object returned, or a call on an object. *)
Inductive lv_call : Type :=
| Create (fn : string) (parent result : lv_obj)
| Call (fn : string) (obj : lv_obj) (args : list lv_arg).

(** The number of objects created so far and the calls made so far,
    oldest first. *)
Record lv_state : Type := mk_lv_state {
  next_id : nat;
  calls : list lv_call
}.

Definition D (A : Type) : Type := lv_state -> A * lv_state.

Definition dret {A} (a : A) : D A := fun st => (a, st).

Definition dbind {A B} (m : D A) (k : A -> D B) : D B :=
  fun st => let '(a, st') := m st in k a st'.

Declare Scope lv_scope.
Delimit Scope lv_scope with lv.
Notation "x <- m ;; k" := (dbind m (fun x => k))
  (at level 100, m at next level, right associativity) : lv_scope.
Notation "m ;; k" := (dbind m (fun _ => k))
  (at level 100, right associativity) : lv_scope.
Local Open Scope lv_scope.

Definition create (fn : string) (parent : lv_obj) : D lv_obj :=
  fun st => (Obj (next_id st),
             {| next_id := S (next_id st);
                calls := calls st ++ [Create fn parent (Obj (next_id st))] |}).

Definition call (fn : string) (obj : lv_obj) (args : list lv_arg) : D unit :=
  fun st => (tt, {| next_id := next_id st;
                    calls := calls st ++ [Call fn obj args] |}).

Definition lv_screen_active : D lv_obj := dret Screen.

(** The colour depths for which [main.c] compiles: with any other value
    of LV_COLOR_DEPTH the macro BTN_DEFINE is not defined. *)
Inductive color_depth : Type := Depth32 | Depth16.

(** What the build supplies: LV_COLOR_DEPTH, the macro LV_PRIu32 of
    LVGL, and the strings __DATE__ and __TIME__ of the compiler. *)
Record build : Type := mk_build {
  LV_COLOR_DEPTH : color_depth;
  LV_PRIu32 : string;
  DATE : string;
  TIME : string
}.

Definition BPP_DEFINE (d : color_depth) : string :=
  match d with
  | Depth32 => "32bpp"
  | Depth16 => "16bpp"
  end.

(** USE_IMG_BUTTONS is defined to 1. *)
Definition BTN_DEFINE (d : color_depth) : string :=
  match d with
  | Depth32 => "wgt"
  | Depth16 => "img"
  end.

Definition menu_icons (d : color_depth) : list string :=
  match d with
  | Depth32 =>
      ["imgBlender"; "imgClock"; "imgCoffeePot"; "imgCooktop"; "imgEspresso";
       "imgHome"; "imgMixer"; "imgOven"; "imgSettings"; "imgTeaMaker"]
  | Depth16 =>
      ["imgBlenderFill"; "imgClockFill"; "imgCoffeePotFill"; "imgCooktopFill";
       "imgEspressoFill"; "imgHomeFill"; "imgMixerFill"; "imgOvenFill";
       "imgSettingsFill"; "imgTeaMakerFill"]
  end.

(** The image of a button in its released state. *)
Definition button_image (d : color_depth) : string :=
  match d with
  | Depth32 => "imgButton32bpp"
  | Depth16 => "imgButton16bpp"
  end.

Definition white : lv_arg := AColorMake 255 255 255.

(** The body of the [for] loop, at index [i]. *)
Definition menu_button (b : build) (panel : lv_obj) (i : nat) : D unit :=
  btn <- create "lv_imagebutton_create" panel ;;
  call "lv_obj_set_size" btn [AInt 279; AInt 250] ;;
  call "lv_imagebutton_set_src" btn
    [ASym "LV_IMAGEBUTTON_STATE_RELEASED"; ANull;
     ASym (button_image (LV_COLOR_DEPTH b)); ANull] ;;
  icon <- create "lv_image_create" btn ;;
  call "lv_image_set_src" icon [ASym (nth i (menu_icons (LV_COLOR_DEPTH b)) "")] ;;
  call "lv_obj_align" icon [ASym "LV_ALIGN_TOP_LEFT"; AInt 30; AInt 50] ;;
  label <- create "lv_label_create" btn ;;
  call "lv_label_set_text_fmt" label
    [AStr ("Scritte %" ++ LV_PRIu32 b); AInt (Z.of_nat i)] ;;
  call "lv_obj_set_style_text_color" label
    [white; ASym "LV_PART_MAIN | LV_STATE_DEFAULT"] ;;
  call "lv_obj_align" label [ASym "LV_ALIGN_OUT_BOTTOM_MID"; AInt 30; AInt 130] ;;
  call "lv_obj_set_style_text_font" label [ASym "lv_font_montserrat_26"; AInt 0].

(** [for (i = first; i < first + n; i++) body (i)]. *)
Fixpoint for_loop (n : nat) (first : nat) (body : nat -> D unit) : D unit :=
  match n with
  | O => dret tt
  | S n' => body first ;; for_loop n' (S first) body
  end.

Definition lv_scroll_test (b : build) : D unit :=
  scr <- lv_screen_active ;;
  call "lv_obj_set_style_bg_color" scr [AColorHex 0x121212; AInt 0] ;;

  scr <- lv_screen_active ;;
  static_text <- create "lv_label_create" scr ;;
  call "lv_label_set_text" static_text [AStr "Scritte Statiche"] ;;
  call "lv_obj_align" static_text [ASym "LV_ALIGN_TOP_LEFT"; AInt 50; AInt 50] ;;
  call "lv_obj_set_style_text_font" static_text [ASym "lv_font_montserrat_20"; AInt 0] ;;
  call "lv_obj_set_style_text_color" static_text
    [white; ASym "LV_PART_MAIN | LV_STATE_DEFAULT"] ;;

  scr <- lv_screen_active ;;
  config_text <- create "lv_label_create" scr ;;
  call "lv_label_set_text" config_text
    [AStr ("Config: " ++ BPP_DEFINE (LV_COLOR_DEPTH b) ++ ", "
             ++ BTN_DEFINE (LV_COLOR_DEPTH b))] ;;
  call "lv_obj_align" config_text [ASym "LV_ALIGN_BOTTOM_LEFT"; AInt 0; AInt 20] ;;
  call "lv_obj_set_style_text_font" config_text [ASym "lv_font_montserrat_14"; AInt 0] ;;
  call "lv_obj_set_style_text_color" config_text
    [white; ASym "LV_PART_MAIN | LV_STATE_DEFAULT"] ;;

  scr <- lv_screen_active ;;
  build_text <- create "lv_label_create" scr ;;
  call "lv_label_set_text" build_text
    [AStr ("Build: " ++ DATE b ++ ", " ++ TIME b)] ;;
  call "lv_obj_align" build_text [ASym "LV_ALIGN_BOTTOM_LEFT"; AInt 0; AInt 0] ;;
  call "lv_obj_set_style_text_font" build_text [ASym "lv_font_montserrat_14"; AInt 0] ;;
  call "lv_obj_set_style_text_color" build_text
    [white; ASym "LV_PART_MAIN | LV_STATE_DEFAULT"] ;;

  scr <- lv_screen_active ;;
  panel <- create "lv_obj_create" scr ;;
  call "lv_obj_set_size" panel [AInt 800; AInt 280] ;;
  call "lv_obj_set_scroll_snap_x" panel [ASym "LV_SCROLL_SNAP_CENTER"] ;;
  call "lv_obj_set_flex_flow" panel [ASym "LV_FLEX_FLOW_ROW"] ;;
  call "lv_obj_align" panel [ASym "LV_ALIGN_OUT_BOTTOM_MID"; AInt 0; AInt 120] ;;
  call "lv_obj_set_scrollbar_mode" panel [ASym "LV_SCROLLBAR_MODE_OFF"] ;;
  call "lv_obj_set_style_bg_opa" panel [ASym "LV_OPA_TRANSP"; AInt 0] ;;
  call "lv_obj_set_style_border_width" panel [AInt 0; AInt 0] ;;
  call "lv_obj_set_style_radius" panel [AInt 0; ASym "LV_STATE_DEFAULT"] ;;

  for_loop (List.length (menu_icons (LV_COLOR_DEPTH b))) 0 (menu_button b panel) ;;
  call "lv_obj_update_snap" panel [ASym "LV_ANIM_ON"].

(** *** Vocabulary *)

(** The objects created by a run of calls, each with the create
    function and the parent. *)
Fixpoint creations (cs : list lv_call) : list (string * lv_obj * lv_obj) :=
  match cs with
  | [] => []
  | Create fn parent result :: cs' => (fn, parent, result) :: creations cs'
  | Call _ _ _ :: cs' => creations cs'
  end.

(** The calls of the function [fn] in a run of calls: the object and
    the arguments of each. *)
Fixpoint calls_of (fn : string) (cs : list lv_call)
  : list (lv_obj * list lv_arg) :=
  match cs with
  | [] => []
  | Call f obj args :: cs' =>
      if String.eqb f fn then (obj, args) :: calls_of fn cs' else calls_of fn cs'
  | Create _ _ _ :: cs' => calls_of fn cs'
  end.

(** The three objects of the menu entry [i], when [id] objects exist
    before it: the button under the panel, its image and its label. *)
Definition entry_objects (panel : lv_obj) (id : nat)
  : list (string * lv_obj * lv_obj) :=
  [("lv_imagebutton_create", panel, Obj id);
   ("lv_image_create", Obj id, Obj (1 + id));
   ("lv_label_create", Obj id, Obj (2 + id))].

End Demo.

(** ** The option scanner *)

Lemma lookup_optstring (c : ascii) (k : optkind) :
  lookup_opt optstring c = Some k ->
  (k = ReqArg /\ In c ["b"; "W"; "H"]%char) \/
  (k = NoArg /\ In c ["f"; "m"; "B"; "V"; "h"]%char).
Proof.
  unfold lookup_opt, optstring. cbn [find_opt].
  repeat match goal with
         | |- context [Ascii.eqb c ?d] => destruct (Ascii.eqb_spec c d); [subst c|]
         end;
    cbn; intros E; inversion E; subst; cbn; tauto.
Qed.

Lemma lookup_optstring_none (c : ascii) :
  lookup_opt optstring c = None ->
  ~ In c ["b"; "f"; "m"; "W"; "H"; "B"; "V"; "h"]%char.
Proof.
  intros E H. cbn in H.
  repeat destruct H as [H | H]; try contradiction; subst c; discriminate E.
Qed.

Lemma scan_cluster_view (cl : string) (next : option string) :
  Forall option_view (fst (scan_cluster optstring cl next)).
Proof.
  induction cl as [|c cs IH]; cbn [scan_cluster fst]; [constructor|].
  destruct (lookup_opt optstring c) as [k|] eqn:E.
  - destruct (lookup_optstring c k E) as [[-> Hc] | [-> Hc]].
    + assert (Harg : forall a, option_view (GotOpt c (Some a))).
      { intros a. cbn in Hc.
        destruct Hc as [<- | [<- | [<- | []]]]; constructor. }
      destruct cs as [|c' cs']; [destruct next as [a|]|]; cbn [fst];
        (constructor;
         [first [apply Harg | apply view_missing; exact Hc] | constructor]).
    + destruct (scan_cluster optstring cs next) as [rs used]. cbn [fst] in *.
      constructor; [|exact IH].
      cbn in Hc.
      destruct Hc as [<- | [<- | [<- | [<- | [<- | []]]]]]; constructor.
  - destruct (scan_cluster optstring cs next) as [rs used]. cbn [fst] in *.
    constructor; [|exact IH].
    constructor. now apply lookup_optstring_none.
Qed.

Lemma getopt_scan_view_tl (posix : bool) (args : list string) :
  Forall option_view (getopt_scan posix optstring args) /\
  Forall option_view (getopt_scan posix optstring (tl args)).
Proof.
  induction args as [|a rest [IH IHtl]]; cbn [getopt_scan tl];
    [split; constructor|].
  split; [|exact IH].
  assert (Hskip : Forall option_view
                    (if posix then [] else getopt_scan posix optstring rest)).
  { destruct posix; [constructor | exact IH]. }
  destruct a as [|d cl]; [exact Hskip|].
  destruct (Ascii.eqb_spec d "-") as [-> | Hd].
  - destruct cl as [|c cs]; [exact Hskip|].
    destruct (String.eqb _ _); [constructor|].
    destruct rest as [|nxt rest'].
    + apply scan_cluster_view.
    + pose proof (scan_cluster_view (String c cs) (Some nxt)) as Hc.
      destruct (scan_cluster optstring (String c cs) (Some nxt)) as [rs used].
      cbn [fst] in Hc. apply Forall_app. split; [exact Hc|].
      destruct used; [exact IHtl | exact IH].
  - destruct d as [[] [] [] [] [] [] [] []]; try exact Hskip.
    now contradiction Hd.
Qed.

Lemma getopt_scan_view (posix : bool) (args : list string) :
  Forall option_view (getopt_scan posix optstring args).
Proof. apply getopt_scan_view_tl. Qed.

Lemma command_line_options_view (env : environ) (argv : list string) :
  Forall option_view (command_line_options env argv).
Proof. apply getopt_scan_view. Qed.

(** ** The option loop *)

Section OptionLoop.

Variable conf : lv_conf.
Variable drv : driver_backends.

Lemma parse_options_app (rs1 rs2 : list getopt_ret) (s : state) :
  parse_options conf drv (rs1 ++ rs2) s =
  match parse_options conf drv rs1 s with
  | (Normal _, s') => parse_options conf drv rs2 s'
  | (Exited n, s') => (Exited n, s')
  | (Fault, s') => (Fault, s')
  end.
Proof.
  revert s. induction rs1 as [|r rs1 IH]; intros s; [reflexivity|].
  cbn [app parse_options]. unfold bind.
  destruct (getopt_report r s) as [[[]|n|] s1]; try reflexivity.
  destruct (handle_option conf drv r s1) as [[[]|n|] s2]; try reflexivity.
  apply IH.
Qed.

(** A flag that does not end the process: the loop goes on from a
    state that differs by what the flag sets. *)
Lemma parse_options_head_passes (r : getopt_ret) (s : state) :
  option_view r -> ends_process drv r = false ->
  exists s1,
    (forall rs, parse_options conf drv (r :: rs) s = parse_options conf drv rs s1) /\
    trace s1 = trace s ++ map EvIsSupported (flag_args "b" [r]) /\
    window_width (settings s1) =
      match last_flag_arg "W" [r] with
      | Some a => atoi a
      | None => window_width (settings s)
      end /\
    window_height (settings s1) =
      match last_flag_arg "H" [r] with
      | Some a => atoi a
      | None => window_height (settings s)
      end /\
    selected_backend s1 =
      match last_flag_arg "b" [r] with
      | Some name => Some name
      | None => selected_backend s
      end.
Proof.
  intros V E. destruct V; try discriminate E.
  - exists s. cbn. rewrite app_nil_r. repeat split; reflexivity.
  - exists s. cbn. rewrite app_nil_r. repeat split; reflexivity.
  - cbn in E.
    eexists. split; [intros rs; cbn; unfold bind; cbn; rewrite E; reflexivity|].
    cbn. repeat split; reflexivity.
  - eexists. split; [intros rs; reflexivity|].
    cbn. rewrite app_nil_r. repeat split; reflexivity.
  - eexists. split; [intros rs; reflexivity|].
    cbn. rewrite app_nil_r. repeat split; reflexivity.
Qed.

Lemma no_startup_configuring (t : list event) :
  forallb (fun e => negb (is_startup_event e)) t = true -> configuring t.
Proof.
  intros Ht e He. rewrite forallb_forall in Ht.
  apply Ht in He. now destruct (is_startup_event e).
Qed.

(** A flag that ends the process: the loop stops there, the globals
    stay as they are and nothing of the start-up has happened. *)
Lemma parse_options_head_ends (r : getopt_ret) (s : state) :
  option_view r -> ends_process drv r = true ->
  exists n s1 t,
    (forall rs, parse_options conf drv (r :: rs) s = (Exited n, s1)) /\
    trace s1 = trace s ++ t /\ configuring t /\
    settings s1 = settings s /\ selected_backend s1 = selected_backend s.
Proof.
  intros V E.
  destruct V; try discriminate E;
    try (cbn in E);
    do 3 eexists;
    (split; [intros rs; cbn; unfold bind; cbn; rewrite ?E; reflexivity|]);
    cbn [trace settings selected_backend]; rewrite <- ?app_assoc;
    (split; [reflexivity|]);
    (split; [apply no_startup_configuring; reflexivity|]);
    split; reflexivity.
Qed.

Lemma flag_args_cons (c : ascii) (r : getopt_ret) (rs : list getopt_ret) :
  flag_args c (r :: rs) = flag_args c [r] ++ flag_args c rs.
Proof.
  destruct r as [d [a|] | d | d]; cbn; try reflexivity.
  now destruct (Ascii.eqb d c).
Qed.

Lemma last_flag_arg_cons (c : ascii) (r : getopt_ret) (rs : list getopt_ret) :
  last_flag_arg c (r :: rs) =
  match last_flag_arg c rs with
  | Some a => Some a
  | None => last_flag_arg c [r]
  end.
Proof. cbn. now destruct (last_flag_arg c rs). Qed.

(** The state after a run of flags none of which ends the process. *)
Lemma parse_options_passing (rs : list getopt_ret) (s : state) :
  Forall option_view rs -> existsb (ends_process drv) rs = false ->
  exists s',
    parse_options conf drv rs s = (Normal tt, s') /\
    trace s' = trace s ++ map EvIsSupported (flag_args "b" rs) /\
    window_width (settings s') =
      match last_flag_arg "W" rs with
      | Some a => atoi a
      | None => window_width (settings s)
      end /\
    window_height (settings s') =
      match last_flag_arg "H" rs with
      | Some a => atoi a
      | None => window_height (settings s)
      end /\
    selected_backend s' =
      match last_flag_arg "b" rs with
      | Some name => Some name
      | None => selected_backend s
      end.
Proof.
  intros V. revert s. induction V as [|r rs Vr Vrs IH]; intros s E.
  - exists s. cbn. rewrite app_nil_r. repeat split; reflexivity.
  - cbn [existsb] in E. apply orb_false_iff in E. destruct E as [Er Ers].
    destruct (parse_options_head_passes r s Vr Er)
      as (s1 & Hrun & Ht & Hw & Hh & Hb).
    destruct (IH s1 Ers) as (s' & Hrun' & Ht' & Hw' & Hh' & Hb').
    exists s'. rewrite Hrun. split; [exact Hrun'|].
    rewrite Ht', Ht, Hw', Hw, Hh', Hh, Hb', Hb.
    rewrite (flag_args_cons "b" r rs), map_app, app_assoc.
    rewrite !(last_flag_arg_cons _ r rs).
    repeat split.
    + now destruct (last_flag_arg "W" rs).
    + now destruct (last_flag_arg "H" rs).
    + now destruct (last_flag_arg "b" rs).
Qed.

Lemma configuring_app (t1 t2 : list event) :
  configuring t1 -> configuring t2 -> configuring (t1 ++ t2).
Proof.
  intros H1 H2 e He. apply in_app_or in He. destruct He; auto.
Qed.

Lemma configuring_validated (names : list string) :
  configuring (map EvIsSupported names).
Proof.
  intros e He. apply in_map_iff in He. now destruct He as (n & <- & _).
Qed.

(** A command line with a flag that ends the process, anywhere: the
    process ends in the loop. *)
Lemma parse_options_ending (rs : list getopt_ret) (s : state) :
  Forall option_view rs -> existsb (ends_process drv) rs = true ->
  exists n s' t,
    parse_options conf drv rs s = (Exited n, s') /\
    trace s' = trace s ++ t /\ configuring t.
Proof.
  intros V. revert s. induction V as [|r rs Vr Vrs IH]; intros s E;
    [discriminate E|].
  cbn [existsb] in E.
  destruct (ends_process drv r) eqn:Er.
  - destruct (parse_options_head_ends r s Vr Er)
      as (n & s1 & t & Hrun & Ht & Hc & _).
    exists n, s1, t. now rewrite Hrun.
  - cbn in E.
    destruct (parse_options_head_passes r s Vr Er) as (s1 & Hrun & Ht & _).
    destruct (IH s1 E) as (n & s' & t & Hrun' & Ht' & Hc).
    exists n, s', (map EvIsSupported (flag_args "b" [r]) ++ t).
    rewrite Hrun, Ht', Ht, app_assoc. repeat split; [exact Hrun'|].
    apply configuring_app; [apply configuring_validated | exact Hc].
Qed.

(** What the loop does at each of the flags that end the process, and
    at [-b]. *)
Lemma parse_unsupported_backend (name : string) (rs : list getopt_ret) (s : state) :
  is_supported_result drv name = 0 ->
  parse_options conf drv (GotOpt "b" (Some name) :: rs) s =
  (Exited EXIT_FAILURE,
   {| settings := settings s;
      selected_backend := selected_backend s;
      trace := trace s ++ [EvIsSupported name;
                           EvDie "error no such backend: %s\n" [ArgStr name]] |}).
Proof.
  intros E. cbn. unfold bind. cbn. rewrite E. cbn.
  now rewrite <- app_assoc.
Qed.

Lemma parse_supported_backend (name : string) (rs : list getopt_ret) (s : state) :
  is_supported_result drv name <> 0 ->
  parse_options conf drv (GotOpt "b" (Some name) :: rs) s =
  parse_options conf drv rs
    {| settings := settings s;
       selected_backend := Some name;
       trace := trace s ++ [EvIsSupported name] |}.
Proof.
  intros E. apply Z.eqb_neq in E. cbn. unfold bind. cbn. now rewrite E.
Qed.

Lemma parse_rejected_flag (r : getopt_ret) (rs : list getopt_ret) (s : state) :
  (exists c, r = GotInvalid c \/ r = GotMissing c) ->
  parse_options conf drv (r :: rs) s =
  (Exited EXIT_FAILURE,
   {| settings := settings s;
      selected_backend := selected_backend s;
      trace := trace s ++ EvGetoptError r :: usage_events ++
                 [EvDie "Unknown option -%c.\n" [ArgChar (getopt_optopt r)]] |}).
Proof.
  intros (c & [-> | ->]); cbn; now rewrite <- !app_assoc.
Qed.

Lemma parse_exit_flag (c : ascii) (rs : list getopt_ret) (s : state) :
  In c ["h"; "V"; "B"]%char ->
  exists e,
    parse_options conf drv (GotOpt c None :: rs) s =
    (Exited EXIT_SUCCESS,
     {| settings := settings s;
        selected_backend := selected_backend s;
        trace := trace s ++ e |}) /\
    validated_names e = [] /\ configuring e.
Proof.
  intros [<- | [<- | [<- | []]]]; eexists;
    (split; [cbn; rewrite <- ?app_assoc; reflexivity|]);
    (split; [reflexivity | apply no_startup_configuring; reflexivity]).
Qed.

(** The first flag that ends the process. *)
Lemma first_ending_flag (rs : list getopt_ret) :
  existsb (ends_process drv) rs = true ->
  exists pre r post,
    rs = pre ++ r :: post /\
    existsb (ends_process drv) pre = false /\ ends_process drv r = true.
Proof.
  induction rs as [|r rs IH]; intros E; [discriminate E|].
  cbn [existsb] in E. destruct (ends_process drv r) eqn:Er.
  - now exists [], r, rs.
  - destruct (IH E) as (pre & r' & post & -> & Hpre & Hr').
    exists (r :: pre), r', post. cbn [app existsb]. now rewrite Er.
Qed.

Lemma last_flag_arg_in (c : ascii) (rs : list getopt_ret) (a : string) :
  last_flag_arg c rs = Some a -> In a (flag_args c rs).
Proof.
  induction rs as [|r rs IH]; [discriminate|].
  rewrite last_flag_arg_cons, flag_args_cons. intros E.
  apply in_or_app.
  destruct (last_flag_arg c rs) as [a'|].
  - right. apply IH. exact E.
  - left. destruct r as [d [a'|] | d | d]; try discriminate E.
    cbn in *. destruct (Ascii.eqb d c); [|discriminate E].
    inversion E. now left.
Qed.

Lemma flag_args_in (c : ascii) (rs : list getopt_ret) (a : string) :
  In a (flag_args c rs) <-> In (GotOpt c (Some a)) rs.
Proof.
  induction rs as [|r rs IH]; [reflexivity|].
  rewrite flag_args_cons. rewrite in_app_iff, IH. cbn [In].
  assert (H : In a (flag_args c [r]) <-> r = GotOpt c (Some a)); [|tauto].
  destruct r as [d [a'|] | d | d]; cbn; try (split; [tauto | discriminate]).
  destruct (Ascii.eqb_spec d c) as [-> | Hd]; cbn.
  - split; [intros [-> | []]; reflexivity | intros E; inversion E; now left].
  - split; [tauto | intros E; inversion E; contradiction].
Qed.

End OptionLoop.

(** ** [configure_simulator] and [main] *)

Section Startup.

Variable conf : lv_conf.
Variable drv : driver_backends.

Lemma configure_simulator_loop (env : environ) (argv : list string) (s : state) :
  configure_simulator conf drv env argv s =
  parse_options conf drv (command_line_options env argv) (at_loop_entry env s).
Proof. reflexivity. Qed.

Lemma main_configure_exits (env : environ) (argv : list string)
      (s s1 : state) (n : Z) :
  configure_simulator conf drv env argv s = (Exited n, s1) ->
  main conf drv env argv s = (Exited n, s1).
Proof. intros H. unfold main, bind at 1. now rewrite H. Qed.

Lemma main_startup (env : environ) (argv : list string) (s s1 : state) :
  configure_simulator conf drv env argv s = (Normal tt, s1) ->
  exists o ts,
    main conf drv env argv s =
      (o, {| settings := settings s1;
             selected_backend := selected_backend s1;
             trace := trace s1 ++ ts |}) /\
    startup_shape (LV_USE_EVDEV conf) (selected_backend s1) ts o.
Proof.
  intros H. unfold main, bind at 1. rewrite H.
  cbn. unfold bind. cbn.
  remember (init_backend_result drv (trace s1 ++ [EvLvInit]) (selected_backend s1))
    as r1 eqn:Hr1. clear Hr1.
  destruct (Z.eqb_spec r1 (-1)) as [-> | E1]; cbn.
  - do 2 eexists. split.
    + rewrite <- !app_assoc. cbn [app]. reflexivity.
    + constructor.
  - destruct (LV_USE_EVDEV conf) eqn:Ev; cbn.
    + remember (init_backend_result drv _ (Some "EVDEV")) as r2 eqn:Hr2.
      clear Hr2.
      destruct (Z.eqb_spec r2 (-1)) as [-> | E2]; cbn;
        do 2 eexists; (split; [rewrite <- !app_assoc; cbn [app]; reflexivity|]);
        now constructor.
    + do 2 eexists. split; [rewrite <- !app_assoc; cbn [app]; reflexivity|].
      now constructor.
Qed.

(** A command line with a flag that ends the process: [main] ends
    inside [configure_simulator]. *)
Lemma main_ends (env : environ) (argv : list string) (s : state) :
  existsb (ends_process drv) (command_line_options env argv) = true ->
  exists n s' tc,
    configure_simulator conf drv env argv s = (Exited n, s') /\
    main conf drv env argv s = (Exited n, s') /\
    trace s' = trace s ++ EvRegister :: tc /\ configuring tc.
Proof.
  intros E.
  destruct (parse_options_ending conf drv _ (at_loop_entry env s)
              (command_line_options_view env argv) E)
    as (n & s' & tc & Hrun & Ht & Hc).
  rewrite <- configure_simulator_loop in Hrun.
  exists n, s', tc. repeat split; auto using main_configure_exits.
  rewrite Ht. cbn [at_loop_entry trace]. now rewrite <- app_assoc.
Qed.

(** A command line without such a flag: [configure_simulator] returns
    and [main] goes through the start-up. *)
Lemma main_starts (env : environ) (argv : list string) (s : state) :
  existsb (ends_process drv) (command_line_options env argv) = false ->
  exists s1 o ts,
    configure_simulator conf drv env argv s = (Normal tt, s1) /\
    trace s1 = trace s ++ EvRegister ::
                 map EvIsSupported (flag_args "b" (command_line_options env argv)) /\
    main conf drv env argv s =
      (o, {| settings := settings s1;
             selected_backend := selected_backend s1;
             trace := trace s1 ++ ts |}) /\
    startup_shape (LV_USE_EVDEV conf) (selected_backend s1) ts o.
Proof.
  intros E.
  destruct (parse_options_passing conf drv _ (at_loop_entry env s)
              (command_line_options_view env argv) E)
    as (s1 & Hrun & Ht & _).
  rewrite <- configure_simulator_loop in Hrun.
  destruct (main_startup env argv s s1 Hrun) as (o & ts & Hmain & Hshape).
  exists s1, o, ts. repeat split; auto.
  rewrite Ht. cbn [at_loop_entry trace]. now rewrite <- app_assoc.
Qed.

(** Every run of the program starts with the registration of the
    back-ends. *)
Lemma main_trace_head (env : environ) (argv : list string)
      (s0 : simulator_settings_t) :
  exists t,
    trace (snd (main conf drv env argv (initial_state s0))) = EvRegister :: t.
Proof.
  destruct (existsb (ends_process drv) (command_line_options env argv)) eqn:E.
  - destruct (main_ends env argv (initial_state s0) E)
      as (n & s' & tc & _ & Hmain & Ht & _).
    rewrite Hmain. cbn [snd]. rewrite Ht. now exists tc.
  - destruct (main_starts env argv (initial_state s0) E)
      as (s1 & o & ts & _ & Ht & Hmain & _).
    rewrite Hmain. cbn [snd trace]. rewrite Ht. cbn [initial_state trace app].
    eexists. reflexivity.
Qed.

(** [main] always ends: it returns 0 or the process exits; NULL is
    never handed to a function that reads a string. *)
Lemma main_outcome (env : environ) (argv : list string) (s : state) :
  fst (main conf drv env argv s) = Normal 0 \/
  exists n, fst (main conf drv env argv s) = Exited n.
Proof.
  destruct (existsb (ends_process drv) (command_line_options env argv)) eqn:E.
  - destruct (main_ends env argv s E) as (n & s' & tc & _ & Hmain & _).
    right. exists n. now rewrite Hmain.
  - destruct (main_starts env argv s E) as (s1 & o & ts & _ & _ & Hmain & Hshape).
    rewrite Hmain. cbn [fst].
    inversion Hshape; subst; [right | right | left | left];
      try reflexivity; now eexists.
Qed.

(** The state in which the loop reaches a flag when no flag before it
    ends the process. *)
Lemma configure_reaches (env : environ) (argv : list string) (s : state)
      (pre rest : list getopt_ret) :
  command_line_options env argv = pre ++ rest ->
  existsb (ends_process drv) pre = false ->
  exists s1,
    configure_simulator conf drv env argv s = parse_options conf drv rest s1 /\
    trace s1 = trace s ++ EvRegister :: map EvIsSupported (flag_args "b" pre) /\
    window_width (settings s1) =
      by_priority (last_flag_arg "W" pre) (getenv env "LV_SIM_WINDOW_WIDTH") 800 /\
    window_height (settings s1) =
      by_priority (last_flag_arg "H" pre) (getenv env "LV_SIM_WINDOW_HEIGHT") 480 /\
    selected_backend s1 = last_flag_arg "b" pre.
Proof.
  intros Hopts E.
  pose proof (command_line_options_view env argv) as V.
  rewrite Hopts in V. apply Forall_app in V. destruct V as [Vpre _].
  destruct (parse_options_passing conf drv pre (at_loop_entry env s) Vpre E)
    as (s1 & Hrun & Ht & Hw & Hh & Hb).
  exists s1. rewrite configure_simulator_loop, Hopts, parse_options_app, Hrun.
  split; [reflexivity|].
  rewrite Ht, Hw, Hh, Hb. cbn [at_loop_entry trace settings selected_backend
                                 window_width window_height].
  rewrite <- app_assoc. unfold by_priority.
  repeat split.
  - destruct (last_flag_arg "W" pre); [reflexivity|].
    now destruct (getenv env "LV_SIM_WINDOW_WIDTH").
  - destruct (last_flag_arg "H" pre); [reflexivity|].
    now destruct (getenv env "LV_SIM_WINDOW_HEIGHT").
  - now destruct (last_flag_arg "b" pre).
Qed.

(** The window size [configure_simulator] leaves, however it ends, is
    decided by the flags up to the one that ends the process. *)
Lemma configure_settings (env : environ) (argv : list string) (s : state) :
  exists pre post,
    command_line_options env argv = pre ++ post /\
    (fst (configure_simulator conf drv env argv s) = Normal tt -> post = []) /\
    window_width (settings (snd (configure_simulator conf drv env argv s))) =
      by_priority (last_flag_arg "W" pre) (getenv env "LV_SIM_WINDOW_WIDTH") 800 /\
    window_height (settings (snd (configure_simulator conf drv env argv s))) =
      by_priority (last_flag_arg "H" pre) (getenv env "LV_SIM_WINDOW_HEIGHT") 480.
Proof.
  destruct (existsb (ends_process drv) (command_line_options env argv)) eqn:E.
  - destruct (first_ending_flag drv _ E) as (pre & r & post & Hopts & Hpre & Hr).
    destruct (configure_reaches env argv s pre (r :: post) Hopts Hpre)
      as (s1 & Hcfg & _ & Hw & Hh & _).
    pose proof (command_line_options_view env argv) as V.
    rewrite Hopts in V. apply Forall_app in V. destruct V as [_ V].
    inversion V as [|? ? Vr _]; subst.
    destruct (parse_options_head_ends conf drv r s1 Vr Hr)
      as (n & s2 & t & Hrun & _ & _ & Hs & _).
    exists pre, (r :: post). rewrite Hcfg, Hrun. cbn [fst snd]. rewrite Hs.
    repeat split; auto. discriminate.
  - destruct (configure_reaches env argv s (command_line_options env argv) []
                (eq_sym (app_nil_r _)) E)
      as (s1 & Hcfg & _ & Hw & Hh & _).
    exists (command_line_options env argv), []. rewrite Hcfg. cbn.
    rewrite app_nil_r. repeat split; auto.
Qed.

Lemma last_flag_arg_absent (c : ascii) (rs : list getopt_ret) :
  (forall a, ~ In (GotOpt c a) rs) -> last_flag_arg c rs = None.
Proof.
  intros H. destruct (last_flag_arg c rs) as [a|] eqn:E; [|reflexivity].
  apply last_flag_arg_in, flag_args_in in E. now apply H in E.
Qed.

End Startup.

(** ** Traces *)

Lemma init_calls_app (t1 t2 : list event) :
  init_calls (t1 ++ t2) = init_calls t1 ++ init_calls t2.
Proof.
  induction t1 as [|e t1 IH]; [reflexivity|].
  destruct e; cbn; now rewrite ?IH.
Qed.

Lemma configuring_init_calls (t : list event) :
  configuring t -> init_calls t = [].
Proof.
  induction t as [|e t IH]; intros H; [reflexivity|].
  assert (He : is_startup_event e = false) by (apply H; now left).
  assert (Ht : init_calls t = []) by (apply IH; intros e' He'; apply H; now right).
  destruct e; cbn; try exact Ht. discriminate He.
Qed.

Lemma configuring_cons (e : event) (t : list event) :
  is_startup_event e = false -> configuring t -> configuring (e :: t).
Proof. intros He Ht e' [<- | H]; auto. Qed.

Lemma configuring_no_run_loop (t : list event) :
  configuring t -> ~ In EvRunLoop t.
Proof. intros H Hin. apply H in Hin. discriminate Hin. Qed.

Lemma validated_names_app (t1 t2 : list event) :
  validated_names (t1 ++ t2) = validated_names t1 ++ validated_names t2.
Proof.
  induction t1 as [|e t1 IH]; [reflexivity|].
  destruct e; cbn; now rewrite ?IH.
Qed.

Lemma validated_names_queries (names : list string) :
  validated_names (map EvIsSupported names) = names.
Proof. induction names as [|n names IH]; cbn; now rewrite ?IH. Qed.

(** ** Properties of the start-up *)

(** C8: on every run of the program [driver_backends_register] is called
    before any other operation of the registry: whenever
    [driver_backends_is_supported], [driver_backends_print_supported],
    [driver_backends_init_backend] or [driver_backends_run_loop] is
    called, the registration is among the calls made before it. *)
Theorem register_precedes_registry_ops
        (conf : lv_conf) (drv : driver_backends)
        (env : environ) (argv : list string) (s0 : simulator_settings_t)
        (pre post : list event) (e : event) :
  trace (snd (main conf drv env argv (initial_state s0))) = pre ++ e :: post ->
  is_registry_op e = true ->
  In EvRegister pre.
Proof.
  destruct (main_trace_head conf drv env argv s0) as (t & ->).
  intros Hsplit He. destruct pre as [|e' pre'].
  - cbn in Hsplit. inversion Hsplit; subst e. discriminate He.
  - cbn in Hsplit. inversion Hsplit. now left.
Qed.

(** An instance: in the run of [lvglsim -b SDL] the registration comes
    before the initialisation of SDL. *)
Lemma register_precedes_registry_ops_witness :
  trace (snd (main conf_evdev sdl_only [] ["lvglsim"; "-b"; "SDL"]
                (initial_state zero_settings)))
    = [EvRegister; EvIsSupported "SDL"; EvLvInit]
      ++ EvInitBackend (Some "SDL") 0
      :: [EvInitBackend (Some "EVDEV") 0; EvScrollTest; EvRunLoop] /\
  is_registry_op (EvInitBackend (Some "SDL") 0) = true /\
  In EvRegister [EvRegister; EvIsSupported "SDL"; EvLvInit].
Proof.
  split; [reflexivity|]. split; [reflexivity|].
  apply (register_precedes_registry_ops conf_evdev sdl_only []
           ["lvglsim"; "-b"; "SDL"] zero_settings
           [EvRegister; EvIsSupported "SDL"; EvLvInit]
           [EvInitBackend (Some "EVDEV") 0; EvScrollTest; EvRunLoop]
           (EvInitBackend (Some "SDL") 0)); reflexivity.
Defined.

(** C2: in [main] the EVDEV input back-end, compiled in only with
    LV_USE_EVDEV, is initialised only after the primary back-end and
    only if the primary initialisation returned something else than -1;
    an initialisation that returns -1 ends the process with a fatal
    message; and the run loop is entered only after every initialisation
    that was attempted has succeeded. *)
Theorem evdev_init_follows_primary_success
        (conf : lv_conf) (drv : driver_backends)
        (env : environ) (argv : list string) (s0 : simulator_settings_t)
        (o : outcome Z) (s : state) :
  main conf drv env argv (initial_state s0) = (o, s) ->
  let calls := init_calls (trace s) in
  (calls = [] \/
   (exists r1, calls = [(selected_backend s, r1)]) \/
   (exists r1 r2,
       calls = [(selected_backend s, r1); (Some "EVDEV", r2)] /\
       LV_USE_EVDEV conf = true /\ r1 <> -1)) /\
  (forall name, In (name, -1) calls ->
     o = Exited EXIT_FAILURE /\
     (exists t msg, trace s = t ++ [EvDie msg []]) /\
     ~ In EvRunLoop (trace s)) /\
  (In EvRunLoop (trace s) ->
     (exists pre, trace s = pre ++ [EvRunLoop] /\ init_calls pre = calls) /\
     calls <> [] /\
     (LV_USE_EVDEV conf = true -> List.length calls = 2%nat) /\
     forall name res, In (name, res) calls -> res <> -1).
Proof.
  intros Hmain calls. subst calls.
  destruct (existsb (ends_process drv) (command_line_options env argv)) eqn:E.
  - destruct (main_ends conf drv env argv (initial_state s0) E)
      as (n & s' & tc & _ & Hmain' & Ht & Hc).
    rewrite Hmain in Hmain'. inversion Hmain'; subst o s'. clear Hmain'.
    cbn [initial_state trace app] in Ht.
    assert (Hc' : configuring (trace s)).
    { rewrite Ht. now apply configuring_cons. }
    rewrite (configuring_init_calls _ Hc').
    split; [now left|]. split; [intros name []|].
    intros Hin. now apply configuring_no_run_loop in Hin.
  - destruct (main_starts conf drv env argv (initial_state s0) E)
      as (s1 & o' & ts & _ & Ht & Hmain' & Hshape).
    rewrite Hmain in Hmain'. inversion Hmain'; subst o' s. clear Hmain' Hmain.
    cbn [initial_state trace app selected_backend] in *.
    assert (Hc : configuring (trace s1)).
    { rewrite Ht. apply configuring_cons; [reflexivity|].
      intros e He. apply in_map_iff in He. now destruct He as (x & <- & _). }
    rewrite init_calls_app, (configuring_init_calls _ Hc). cbn [app].
    pose proof (configuring_no_run_loop _ Hc) as Hnr.
    inversion Hshape; subst; cbn [init_calls].
    + split; [right; left; now eexists|]. split.
      * intros name _. split; [reflexivity|]. split.
        -- exists (trace s1 ++ [EvLvInit; EvInitBackend (selected_backend s1) (-1)]).
           eexists. rewrite <- app_assoc. reflexivity.
        -- intros Hin. apply in_app_or in Hin. destruct Hin as [Hin | Hin]; [auto|].
           cbn in Hin. intuition discriminate.
      * intros Hin. apply in_app_or in Hin. destruct Hin as [Hin | Hin]; [tauto|].
        cbn in Hin. intuition discriminate.
    + split; [right; right; now eauto|]. split.
      * intros name _. split; [reflexivity|]. split.
        -- eexists (trace s1 ++ [EvLvInit; EvInitBackend (selected_backend s1) r1;
                                 EvInitBackend (Some "EVDEV") (-1)]).
           eexists. rewrite <- app_assoc. reflexivity.
        -- intros Hin. apply in_app_or in Hin. destruct Hin as [Hin | Hin]; [auto|].
           cbn in Hin. intuition discriminate.
      * intros Hin. apply in_app_or in Hin. destruct Hin as [Hin | Hin]; [tauto|].
        cbn in Hin. intuition discriminate.
    + split; [right; right; now eauto|]. split.
      * intros name Hin. cbn in Hin.
        destruct Hin as [Hin | [Hin | []]]; inversion Hin; congruence.
      * intros _. split; [|split; [discriminate|split; [reflexivity|]]].
        -- exists (trace s1 ++ [EvLvInit; EvInitBackend (selected_backend s1) r1;
                                EvInitBackend (Some "EVDEV") r2; EvScrollTest]).
           split; [rewrite <- app_assoc; reflexivity|].
           rewrite init_calls_app, (configuring_init_calls _ Hc). reflexivity.
        -- intros name res Hin. cbn in Hin.
           destruct Hin as [Hin | [Hin | []]]; inversion Hin; congruence.
    + split; [right; left; now eauto|]. split.
      * intros name Hin. cbn in Hin.
        destruct Hin as [Hin | []]; inversion Hin; congruence.
      * intros _. split; [|split; [discriminate|split; [congruence|]]].
        -- exists (trace s1 ++ [EvLvInit; EvInitBackend (selected_backend s1) r1;
                                EvScrollTest]).
           split; [rewrite <- app_assoc; reflexivity|].
           rewrite init_calls_app, (configuring_init_calls _ Hc). reflexivity.
        -- intros name res Hin. cbn in Hin.
           destruct Hin as [Hin | []]; inversion Hin; congruence.
Qed.

(** An instance: [lvglsim] with every initialisation succeeding enters
    the run loop after both init calls. *)
Lemma evdev_init_follows_primary_success_witness :
  let final :=
    {| settings := {| window_width := 800; window_height := 480 |};
       selected_backend := None;
       trace := [EvRegister; EvLvInit; EvInitBackend None 0;
                 EvInitBackend (Some "EVDEV") 0; EvScrollTest; EvRunLoop] |} in
  main conf_evdev sdl_only [] ["lvglsim"] (initial_state zero_settings)
    = (Normal 0, final) /\
  In EvRunLoop (trace final) /\
  init_calls (trace final) <> [] /\
  forall name res, In (name, res) (init_calls (trace final)) -> res <> -1.
Proof.
  cbn zeta. split; [reflexivity|]. split; [cbn; tauto|].
  refine (let H := evdev_init_follows_primary_success conf_evdev sdl_only []
                     ["lvglsim"] zero_settings (Normal 0) _ eq_refl in _).
  destruct H as (_ & _ & H). destruct H as (_ & Hne & _ & Hall); [cbn; tauto|].
  split; [exact Hne | exact Hall].
Defined.

(** C7: when the command line holds [-B] and no flag before it ends the
    process, the program calls [driver_backends_print_supported] and
    exits with status 0; no back-end is initialised, and neither
    [lv_init] nor the run loop is reached. *)
Theorem list_backends_exits_success
        (conf : lv_conf) (drv : driver_backends)
        (env : environ) (argv : list string) (s0 : simulator_settings_t)
        (pre post : list getopt_ret) :
  command_line_options env argv = pre ++ GotOpt "B" None :: post ->
  existsb (ends_process drv) pre = false ->
  exists s,
    main conf drv env argv (initial_state s0) = (Exited EXIT_SUCCESS, s) /\
    (exists t, trace s = t ++ [EvPrintSupported]) /\
    init_calls (trace s) = [] /\
    ~ In EvRunLoop (trace s) /\
    ~ In EvLvInit (trace s).
Proof.
  intros Hopts Hpre.
  destruct (configure_reaches conf drv env argv (initial_state s0) pre _ Hopts Hpre)
    as (s1 & Hcfg & Ht & _).
  cbn in Hcfg. cbn [initial_state trace app] in Ht.
  eexists. split; [apply main_configure_exits; exact Hcfg|].
  cbn [trace].
  assert (Hc : configuring (trace s1 ++ [EvPrintSupported])).
  { rewrite Ht. apply configuring_app.
    - apply configuring_cons; [reflexivity | apply configuring_validated].
    - apply no_startup_configuring. reflexivity. }
  split; [now eexists|].
  split; [now apply configuring_init_calls|].
  split; [now apply configuring_no_run_loop|].
  intros Hin. apply Hc in Hin. discriminate Hin.
Qed.

(** An instance: [-B] after three flags that let the parsing go on. *)
Lemma list_backends_exits_success_witness :
  command_line_options [] ["lvglsim"; "-fW"; "640"; "-b"; "SDL"; "-B"; "-b"; "none"]
    = [GotOpt "f" None; GotOpt "W" (Some "640"); GotOpt "b" (Some "SDL")]
      ++ GotOpt "B" None :: [GotOpt "b" (Some "none")] /\
  existsb (ends_process sdl_only)
    [GotOpt "f" None; GotOpt "W" (Some "640"); GotOpt "b" (Some "SDL")] = false /\
  exists s,
    main conf_evdev sdl_only [] ["lvglsim"; "-fW"; "640"; "-b"; "SDL"; "-B"; "-b"; "none"]
      (initial_state zero_settings) = (Exited EXIT_SUCCESS, s) /\
    (exists t, trace s = t ++ [EvPrintSupported]) /\
    init_calls (trace s) = [] /\
    ~ In EvRunLoop (trace s) /\
    ~ In EvLvInit (trace s).
Proof.
  split; [reflexivity|]. split; [reflexivity|].
  apply (list_backends_exits_success conf_evdev sdl_only []
           ["lvglsim"; "-fW"; "640"; "-b"; "SDL"; "-B"; "-b"; "none"] zero_settings
           [GotOpt "f" None; GotOpt "W" (Some "640"); GotOpt "b" (Some "SDL")]
           [GotOpt "b" (Some "none")]); reflexivity.
Defined.

(** C3: the window size that results from [configure_simulator] obeys
    the priority order: for each dimension the argument of the last
    [-W] (resp. [-H]) flag if there is one, otherwise the value of
    LV_SIM_WINDOW_WIDTH (resp. LV_SIM_WINDOW_HEIGHT) if it is set,
    otherwise the default 800 (resp. 480). *)
Theorem window_size_priority
        (conf : lv_conf) (drv : driver_backends)
        (env : environ) (argv : list string) (s s' : state) :
  configure_simulator conf drv env argv s = (Normal tt, s') ->
  window_width (settings s') =
    by_priority (last_flag_arg "W" (command_line_options env argv))
                (getenv env "LV_SIM_WINDOW_WIDTH") 800 /\
  window_height (settings s') =
    by_priority (last_flag_arg "H" (command_line_options env argv))
                (getenv env "LV_SIM_WINDOW_HEIGHT") 480.
Proof.
  intros H.
  destruct (configure_settings conf drv env argv s) as (pre & post & Hopts & Hpost & Hw & Hh).
  rewrite H in Hpost, Hw, Hh. cbn [fst snd] in *.
  rewrite (Hpost eq_refl), app_nil_r in Hopts. subst pre. now split.
Qed.

(** An instance: two [-W] flags and both variables set; the last flag
    gives the width and the environment the height. *)
Lemma window_size_priority_witness :
  let env := [("LV_SIM_WINDOW_WIDTH", "1024"); ("LV_SIM_WINDOW_HEIGHT", "600")] in
  let argv := ["lvglsim"; "-W"; "320"; "-W"; "640"] in
  let final :=
    {| settings := {| window_width := 640; window_height := 600 |};
       selected_backend := None;
       trace := [EvRegister] |} in
  configure_simulator conf_evdev sdl_only env argv (initial_state zero_settings)
    = (Normal tt, final) /\
  window_width (settings final) =
    by_priority (last_flag_arg "W" (command_line_options env argv))
                (getenv env "LV_SIM_WINDOW_WIDTH") 800 /\
  window_height (settings final) =
    by_priority (last_flag_arg "H" (command_line_options env argv))
                (getenv env "LV_SIM_WINDOW_HEIGHT") 480.
Proof.
  cbn zeta. split; [reflexivity|].
  apply (window_size_priority conf_evdev sdl_only
           [("LV_SIM_WINDOW_WIDTH", "1024"); ("LV_SIM_WINDOW_HEIGHT", "600")]
           ["lvglsim"; "-W"; "320"; "-W"; "640"] (initial_state zero_settings)).
  reflexivity.
Defined.

(** C4: with no [-W] and no [-H] flag on the command line and with
    neither LV_SIM_WINDOW_WIDTH nor LV_SIM_WINDOW_HEIGHT in the
    environment, [configure_simulator] leaves [settings.window_width] at
    800 and [settings.window_height] at 480, however it ends. *)
Theorem default_window_size
        (conf : lv_conf) (drv : driver_backends)
        (env : environ) (argv : list string) (s : state) :
  (forall a, ~ In (GotOpt "W" a) (command_line_options env argv)) ->
  (forall a, ~ In (GotOpt "H" a) (command_line_options env argv)) ->
  getenv env "LV_SIM_WINDOW_WIDTH" = None ->
  getenv env "LV_SIM_WINDOW_HEIGHT" = None ->
  settings (snd (configure_simulator conf drv env argv s)) =
    {| window_width := 800; window_height := 480 |}.
Proof.
  intros HW HH Ew Eh.
  destruct (configure_settings conf drv env argv s) as (pre & post & Hopts & _ & Hw & Hh).
  rewrite Ew in Hw. rewrite Eh in Hh.
  rewrite last_flag_arg_absent in Hw
    by (intros a Hin; apply (HW a); rewrite Hopts; apply in_or_app; now left).
  rewrite last_flag_arg_absent in Hh
    by (intros a Hin; apply (HH a); rewrite Hopts; apply in_or_app; now left).
  unfold by_priority in Hw, Hh.
  destruct (settings (snd (configure_simulator conf drv env argv s))) as [w h].
  cbn [window_width window_height] in Hw, Hh. now subst.
Qed.

(** An instance: no [-W], no [-H], neither variable set. *)
Lemma default_window_size_witness :
  let env := [("HOME", "/root")] in
  let argv := ["lvglsim"; "-b"; "SDL"; "-f"] in
  (forall a, ~ In (GotOpt "W" a) (command_line_options env argv)) /\
  (forall a, ~ In (GotOpt "H" a) (command_line_options env argv)) /\
  getenv env "LV_SIM_WINDOW_WIDTH" = None /\
  getenv env "LV_SIM_WINDOW_HEIGHT" = None /\
  settings (snd (configure_simulator conf_evdev sdl_only env argv
                   (initial_state zero_settings))) =
    {| window_width := 800; window_height := 480 |}.
Proof.
  cbn zeta.
  assert (HW : forall a, ~ In (GotOpt "W" a)
                           (command_line_options [("HOME", "/root")]
                              ["lvglsim"; "-b"; "SDL"; "-f"])).
  { intros a [H | [H | []]]; discriminate H. }
  assert (HH : forall a, ~ In (GotOpt "H" a)
                           (command_line_options [("HOME", "/root")]
                              ["lvglsim"; "-b"; "SDL"; "-f"])).
  { intros a [H | [H | []]]; discriminate H. }
  split; [exact HW|]. split; [exact HH|]. split; [reflexivity|]. split; [reflexivity|].
  apply (default_window_size conf_evdev sdl_only [("HOME", "/root")]
           ["lvglsim"; "-b"; "SDL"; "-f"] (initial_state zero_settings) HW HH);
    reflexivity.
Defined.

Lemma validated_names_in (name : string) (t : list event) :
  In (EvIsSupported name) t <-> In name (validated_names t).
Proof.
  induction t as [|e t IH]; [reflexivity|].
  destruct e; cbn; rewrite <- ?IH;
    try (split; [intros [H | H]; [discriminate H | exact H] | now right]).
  split; (intros [H | H]; [left | now right]); congruence.
Qed.

(** C1, as the code has it: a command line with [-b NAME], NAME unknown
    to the registry, never gets to a back-end initialisation: the
    process ends while the options are parsed.  When no flag before
    this one ends the process, it ends at this flag, with the
    diagnostic of [die] and a non-zero status, right after the name was
    checked.  When NAME is supported and the flag is reached, NAME
    becomes the selected back-end and the loop goes on with the flags
    that follow. *)
Theorem backend_flag_validated
        (conf : lv_conf) (drv : driver_backends)
        (env : environ) (argv : list string) (s0 : simulator_settings_t)
        (pre post : list getopt_ret) (name : string) :
  command_line_options env argv = pre ++ GotOpt "b" (Some name) :: post ->
  (is_supported_result drv name = 0 ->
     (exists n s,
         configure_simulator conf drv env argv (initial_state s0) = (Exited n, s) /\
         main conf drv env argv (initial_state s0) = (Exited n, s) /\
         init_calls (trace s) = []) /\
     (existsb (ends_process drv) pre = false ->
      exists s t,
        configure_simulator conf drv env argv (initial_state s0)
          = (Exited EXIT_FAILURE, s) /\
        main conf drv env argv (initial_state s0) = (Exited EXIT_FAILURE, s) /\
        trace s = t ++ [EvIsSupported name;
                        EvDie "error no such backend: %s\n" [ArgStr name]] /\
        EXIT_FAILURE <> 0)) /\
  (is_supported_result drv name <> 0 ->
   existsb (ends_process drv) pre = false ->
   exists s1 t,
     configure_simulator conf drv env argv (initial_state s0)
       = parse_options conf drv post s1 /\
     selected_backend s1 = Some name /\
     trace s1 = t ++ [EvIsSupported name]).
Proof.
  intros Hopts. split.
  - intros Hbad. split.
    + assert (E : existsb (ends_process drv) (command_line_options env argv) = true).
      { apply existsb_exists. exists (GotOpt "b" (Some name)). split.
        - rewrite Hopts. apply in_or_app. right. now left.
        - cbn. now rewrite Hbad. }
      destruct (main_ends conf drv env argv (initial_state s0) E)
        as (n & s & tc & Hcfg & Hmain & Ht & Hc).
      exists n, s. repeat split; auto.
      apply configuring_init_calls. rewrite Ht. cbn [initial_state trace app].
      now apply configuring_cons.
    + intros Hpre.
      destruct (configure_reaches conf drv env argv (initial_state s0) pre _ Hopts Hpre)
        as (s1 & Hcfg & _).
      rewrite parse_unsupported_backend in Hcfg by exact Hbad.
      do 2 eexists. split; [exact Hcfg|].
      split; [apply main_configure_exits; exact Hcfg|].
      split; [reflexivity | discriminate].
  - intros Hgood Hpre.
    destruct (configure_reaches conf drv env argv (initial_state s0) pre _ Hopts Hpre)
      as (s1 & Hcfg & _).
    rewrite parse_supported_backend in Hcfg by exact Hgood.
    do 2 eexists. split; [exact Hcfg|]. split; reflexivity.
Qed.

(** An instance: [-b DRM] is reached and DRM is not supported. *)
Lemma backend_flag_validated_witness :
  let argv := ["lvglsim"; "-W"; "640"; "-b"; "DRM"; "-H"; "400"] in
  command_line_options [] argv
    = [GotOpt "W" (Some "640")] ++ GotOpt "b" (Some "DRM") :: [GotOpt "H" (Some "400")] /\
  is_supported_result sdl_only "DRM" = 0 /\
  existsb (ends_process sdl_only) [GotOpt "W" (Some "640")] = false /\
  exists s t,
    configure_simulator conf_evdev sdl_only [] argv (initial_state zero_settings)
      = (Exited EXIT_FAILURE, s) /\
    main conf_evdev sdl_only [] argv (initial_state zero_settings)
      = (Exited EXIT_FAILURE, s) /\
    trace s = t ++ [EvIsSupported "DRM";
                    EvDie "error no such backend: %s\n" [ArgStr "DRM"]] /\
    EXIT_FAILURE <> 0.
Proof.
  cbn zeta. split; [reflexivity|]. split; [reflexivity|]. split; [reflexivity|].
  refine (let H := backend_flag_validated conf_evdev sdl_only []
                     ["lvglsim"; "-W"; "640"; "-b"; "DRM"; "-H"; "400"] zero_settings
                     [GotOpt "W" (Some "640")] [GotOpt "H" (Some "400")] "DRM"
                     eq_refl in _).
  destruct H as [H _]. destruct (H eq_refl) as [_ H']. exact (H' eq_refl).
Defined.

(** C1 as stated fails: on [lvglsim -h -b none], where the registry does
    not know [none], the process prints the usage and exits with status
    0; no diagnostic is written and the name is never checked. *)
Lemma backend_flag_after_help_counterexample :
  let argv := ["lvglsim"; "-h"; "-b"; "none"] in
  command_line_options [] argv = [GotOpt "h" None; GotOpt "b" (Some "none")] /\
  is_supported_result sdl_only "none" = 0 /\
  main conf_evdev sdl_only [] argv (initial_state zero_settings)
    = (Exited 0,
       {| settings := {| window_width := 800; window_height := 480 |};
          selected_backend := None;
          trace := EvRegister :: usage_events |}).
Proof. cbn zeta. repeat split; reflexivity. Qed.

(** C5, as the code has it: the flags the parser accepts are those of
    the option string, [-b -f -m -W -H -B -V -h]; [getopt] rejects every
    other flag, and [-b], [-W], [-H] at the end of the command line with
    no argument.  A command line with a rejected flag never gets to
    [lv_init], a back-end initialisation or the run loop: the process
    ends while the options are parsed.  When no flag before the rejected
    one ends the process, it ends there: the usage message is printed,
    [die] reports the flag and the exit status is non-zero. *)
Theorem rejected_flag_is_fatal
        (conf : lv_conf) (drv : driver_backends)
        (env : environ) (argv : list string) (s0 : simulator_settings_t)
        (pre post : list getopt_ret) (r : getopt_ret) (c : ascii) :
  command_line_options env argv = pre ++ r :: post ->
  r = GotInvalid c \/ r = GotMissing c ->
  (r = GotInvalid c -> ~ In c ["b"; "f"; "m"; "W"; "H"; "B"; "V"; "h"]%char) /\
  (r = GotMissing c -> In c ["b"; "W"; "H"]%char) /\
  (exists n s,
      main conf drv env argv (initial_state s0) = (Exited n, s) /\
      init_calls (trace s) = [] /\
      ~ In EvLvInit (trace s) /\
      ~ In EvRunLoop (trace s)) /\
  (existsb (ends_process drv) pre = false ->
   exists s t,
     main conf drv env argv (initial_state s0) = (Exited EXIT_FAILURE, s) /\
     trace s = t ++ EvGetoptError r :: usage_events ++
                 [EvDie "Unknown option -%c.\n" [ArgChar c]] /\
     EXIT_FAILURE <> 0).
Proof.
  intros Hopts Hr.
  assert (Vr : option_view r).
  { pose proof (command_line_options_view env argv) as V.
    rewrite Hopts in V. apply Forall_app in V. destruct V as [_ V].
    now inversion V. }
  split; [intros ->; now inversion Vr|].
  split; [intros ->; now inversion Vr|].
  split.
  - assert (E : existsb (ends_process drv) (command_line_options env argv) = true).
    { apply existsb_exists. exists r. split.
      - rewrite Hopts. apply in_or_app. right. now left.
      - now destruct Hr as [-> | ->]. }
    destruct (main_ends conf drv env argv (initial_state s0) E)
      as (n & s & tc & _ & Hmain & Ht & Hc).
    assert (Hc' : configuring (trace s)).
    { rewrite Ht. cbn [initial_state trace app]. now apply configuring_cons. }
    exists n, s. split; [exact Hmain|].
    split; [now apply configuring_init_calls|].
    split; [|now apply configuring_no_run_loop].
    intros Hin. apply Hc' in Hin. discriminate Hin.
  - intros Hpre.
    destruct (configure_reaches conf drv env argv (initial_state s0) pre _ Hopts Hpre)
      as (s1 & Hcfg & _).
    rewrite parse_rejected_flag in Hcfg by (exists c; exact Hr).
    do 2 eexists. split; [apply main_configure_exits; exact Hcfg|].
    cbn [trace]. split; [now destruct Hr as [-> | ->] | discriminate].
Qed.

(** An instance: [-W] ends the command line and has no argument. *)
Lemma rejected_flag_is_fatal_witness :
  let argv := ["lvglsim"; "-f"; "-W"] in
  command_line_options [] argv = [GotOpt "f" None] ++ GotMissing "W" :: [] /\
  (GotMissing "W" = GotInvalid "W" \/ GotMissing "W" = GotMissing "W") /\
  existsb (ends_process sdl_only) [GotOpt "f" None] = false /\
  exists s t,
    main conf_evdev sdl_only [] argv (initial_state zero_settings)
      = (Exited EXIT_FAILURE, s) /\
    trace s = t ++ EvGetoptError (GotMissing "W") :: usage_events ++
                [EvDie "Unknown option -%c.\n" [ArgChar "W"]] /\
    EXIT_FAILURE <> 0.
Proof.
  cbn zeta. split; [reflexivity|]. split; [now right|]. split; [reflexivity|].
  refine (let H := rejected_flag_is_fatal conf_evdev sdl_only []
                     ["lvglsim"; "-f"; "-W"] zero_settings
                     [GotOpt "f" None] [] (GotMissing "W") "W"
                     eq_refl (or_intror eq_refl) in _).
  destruct H as (_ & _ & _ & H). exact (H eq_refl).
Defined.

(** C5 as stated fails twice.  [-f] is not among [-b -W -H -B -V -h], yet
    [lvglsim -f] goes through the whole start-up and enters the run
    loop.  And on [lvglsim -h -x] the unknown flag [-x] is never looked
    at: the process exits with status 0 at [-h]. *)
Lemma unlisted_flag_counterexample :
  (command_line_options [] ["lvglsim"; "-f"] = [GotOpt "f" None] /\
   ~ In "f"%char ["b"; "W"; "H"; "B"; "V"; "h"]%char /\
   main conf_evdev sdl_only [] ["lvglsim"; "-f"] (initial_state zero_settings)
     = (Normal 0,
        {| settings := {| window_width := 800; window_height := 480 |};
           selected_backend := None;
           trace := [EvRegister; EvLvInit; EvInitBackend None 0;
                     EvInitBackend (Some "EVDEV") 0; EvScrollTest; EvRunLoop] |})) /\
  (command_line_options [] ["lvglsim"; "-h"; "-x"] = [GotOpt "h" None; GotInvalid "x"] /\
   fst (main conf_evdev sdl_only [] ["lvglsim"; "-h"; "-x"] (initial_state zero_settings))
     = Exited 0).
Proof.
  repeat split; try reflexivity.
  cbn. intros H. repeat destruct H as [H | H]; try discriminate H. exact H.
Qed.

(** C10, as the code has it: the flags are handled from left to right,
    and when [-h], [-V] or [-B] is reached with no flag before it ending
    the process, the process exits there with status 0.  The names
    checked against the registry are then those of the [-b] flags
    before it; the NAME of a [-b NAME] after it is not checked for that
    flag, supported or not. *)
Theorem exit_flag_skips_later_validation
        (conf : lv_conf) (drv : driver_backends)
        (env : environ) (argv : list string) (s0 : simulator_settings_t)
        (pre mid post : list getopt_ret) (c : ascii) (name : string) :
  command_line_options env argv
    = pre ++ GotOpt c None :: mid ++ GotOpt "b" (Some name) :: post ->
  In c ["h"; "V"; "B"]%char ->
  existsb (ends_process drv) pre = false ->
  exists s,
    main conf drv env argv (initial_state s0) = (Exited EXIT_SUCCESS, s) /\
    validated_names (trace s) = flag_args "b" pre /\
    (~ In (GotOpt "b" (Some name)) pre -> ~ In (EvIsSupported name) (trace s)).
Proof.
  intros Hopts Hc Hpre.
  destruct (configure_reaches conf drv env argv (initial_state s0) pre _ Hopts Hpre)
    as (s1 & Hcfg & Ht & _).
  destruct (parse_exit_flag conf drv c
              (mid ++ GotOpt "b" (Some name) :: post) s1 Hc)
    as (e & Hrun & He & _).
  rewrite Hrun in Hcfg.
  eexists. split; [apply main_configure_exits; exact Hcfg|].
  cbn [trace].
  assert (Hv : validated_names (trace s1 ++ e) = flag_args "b" pre).
  { rewrite validated_names_app, He, app_nil_r, Ht.
    cbn [initial_state trace app validated_names].
    apply validated_names_queries. }
  split; [exact Hv|].
  intros Hnot Hin. apply validated_names_in in Hin. rewrite Hv in Hin.
  now apply flag_args_in in Hin.
Qed.

(** An instance: [-V] between a supported and an unsupported [-b]. *)
Lemma exit_flag_skips_later_validation_witness :
  let argv := ["lvglsim"; "-b"; "SDL"; "-V"; "-m"; "-b"; "none"] in
  command_line_options [] argv
    = [GotOpt "b" (Some "SDL")] ++ GotOpt "V" None
        :: [GotOpt "m" None] ++ GotOpt "b" (Some "none") :: [] /\
  In "V"%char ["h"; "V"; "B"]%char /\
  existsb (ends_process sdl_only) [GotOpt "b" (Some "SDL")] = false /\
  exists s,
    main conf_evdev sdl_only [] argv (initial_state zero_settings)
      = (Exited EXIT_SUCCESS, s) /\
    validated_names (trace s) = flag_args "b" [GotOpt "b" (Some "SDL")] /\
    (~ In (GotOpt "b" (Some "none")) [GotOpt "b" (Some "SDL")] ->
     ~ In (EvIsSupported "none") (trace s)).
Proof.
  cbn zeta. split; [reflexivity|]. split; [cbn; tauto|]. split; [reflexivity|].
  apply (exit_flag_skips_later_validation conf_evdev sdl_only []
           ["lvglsim"; "-b"; "SDL"; "-V"; "-m"; "-b"; "none"] zero_settings
           [GotOpt "b" (Some "SDL")] [GotOpt "m" None] [] "V" "none");
    [reflexivity | cbn; tauto | reflexivity].
Defined.

(** C10 as stated fails: on [lvglsim -x -h -b SDL] the flag [-h] comes
    before [-b SDL], yet the process ends at the unknown flag [-x], with
    the status of [die] and not with 0. *)
Lemma help_before_backend_counterexample :
  let argv := ["lvglsim"; "-x"; "-h"; "-b"; "SDL"] in
  command_line_options [] argv
    = [GotInvalid "x"; GotOpt "h" None; GotOpt "b" (Some "SDL")] /\
  fst (main conf_evdev sdl_only [] argv (initial_state zero_settings)) = Exited 1 /\
  fst (main conf_evdev sdl_only [] argv (initial_state zero_settings)) <> Exited 0.
Proof. cbn zeta. repeat split; try reflexivity. discriminate. Qed.

(** C9: [-f] and [-m] are option characters of the option string, with
    no argument; [getopt] hands the words [-f] and [-m] back as the flags
    [f] and [m]; and a flag [f] or [m] leaves the process running and
    the whole state as it is: settings, selected back-end and the trace
    of what was printed or called.  So the run on a command line is the
    run on the same flags without them. *)
Theorem flags_f_and_m_have_no_effect :
  (lookup_opt optstring "f" = Some NoArg /\
   lookup_opt optstring "m" = Some NoArg) /\
  (forall posix rest,
      getopt_scan posix optstring ("-f" :: rest)
        = GotOpt "f" None :: getopt_scan posix optstring rest /\
      getopt_scan posix optstring ("-m" :: rest)
        = GotOpt "m" None :: getopt_scan posix optstring rest) /\
  (forall conf drv s,
      (getopt_report (GotOpt "f" None) ;; handle_option conf drv (GotOpt "f" None)) s
        = (Normal tt, s) /\
      (getopt_report (GotOpt "m" None) ;; handle_option conf drv (GotOpt "m" None)) s
        = (Normal tt, s)) /\
  (forall conf drv pre post s,
      parse_options conf drv (pre ++ GotOpt "f" None :: post) s
        = parse_options conf drv (pre ++ post) s /\
      parse_options conf drv (pre ++ GotOpt "m" None :: post) s
        = parse_options conf drv (pre ++ post) s).
Proof.
  split; [split; reflexivity|].
  split; [intros posix [|nxt rest]; split; reflexivity|].
  split; [intros conf drv s; split; reflexivity|].
  intros conf drv pre post s. rewrite !parse_options_app.
  destruct (parse_options conf drv pre s) as [[[]|n|] s1]; split; reflexivity.
Qed.

(** ** [atoi] on decimal numerals *)

Lemma digits_lower_bound (s : string) (acc : Z) :
  0 <= acc -> acc <= digits acc s.
Proof.
  revert acc. induction s as [|c s IH]; intros acc Hacc; cbn [digits]; [lia|].
  destruct (digit_of c) as [d|] eqn:E; [|lia].
  assert (0 <= d).
  { unfold digit_of in E.
    destruct (_ && _) eqn:Hb in E; [|discriminate E].
    inversion E. apply andb_true_iff in Hb. lia. }
  specialize (IH (10 * acc + d)). lia.
Qed.

Lemma digit_not_space_or_sign (c : ascii) (d : Z) :
  digit_of c = Some d ->
  isspace c = false /\ c <> "-"%char /\ c <> "+"%char.
Proof.
  destruct c as [[] [] [] [] [] [] [] []]; cbn; intros E;
    try discriminate E; repeat split; discriminate.
Qed.

(** A non-empty string of digits whose value fits an [int] is read as
    that value. *)
Lemma atoi_decimal (s : string) :
  s <> "" -> all_digits s = true -> digits 0 s <= 2147483647 ->
  atoi s = digits 0 s.
Proof.
  intros Hne Hd Hmax.
  pose proof (digits_lower_bound s 0 (Z.le_refl 0)) as Hmin.
  destruct s as [|c s]; [contradiction|].
  cbn [all_digits] in Hd. destruct (digit_of c) as [d|] eqn:E; [|discriminate Hd].
  destruct (digit_not_space_or_sign c d E) as (Hsp & Hm & Hp).
  unfold atoi, strtol. cbn [skip_space]. rewrite Hsp.
  assert (Hsign : match String c s with
                  | String "-" s' => (true, s')
                  | String "+" s' => (false, s')
                  | _ => (false, String c s)
                  end = (false, String c s)).
  { destruct c as [[] [] [] [] [] [] [] []]; try reflexivity; congruence. }
  rewrite Hsign.
  unfold to_int, LONG_MIN, LONG_MAX.
  rewrite Z.min_r by lia. rewrite Z.max_r by lia.
  rewrite Z.mod_small by lia. lia.
Qed.

(** C6, as the code has it: [configure_simulator] does not check what it
    reads.  When it returns, the window width and height are positive
    provided every [-W] and [-H] argument on the command line, and each
    of LV_SIM_WINDOW_WIDTH and LV_SIM_WINDOW_HEIGHT that is set, is a
    string [atoi] reads as a positive number. *)
Theorem window_size_positive
        (conf : lv_conf) (drv : driver_backends)
        (env : environ) (argv : list string) (s s' : state) :
  configure_simulator conf drv env argv s = (Normal tt, s') ->
  (forall a, In (GotOpt "W" (Some a)) (command_line_options env argv) -> 0 < atoi a) ->
  (forall a, In (GotOpt "H" (Some a)) (command_line_options env argv) -> 0 < atoi a) ->
  (forall v, getenv env "LV_SIM_WINDOW_WIDTH" = Some v -> 0 < atoi v) ->
  (forall v, getenv env "LV_SIM_WINDOW_HEIGHT" = Some v -> 0 < atoi v) ->
  window_width (settings s') > 0 /\ window_height (settings s') > 0.
Proof.
  intros H HW HH Ew Eh.
  destruct (configure_settings conf drv env argv s)
    as (pre & post & Hopts & Hpost & Hw & Hh).
  rewrite H in Hpost, Hw, Hh. cbn [fst snd] in *.
  rewrite (Hpost eq_refl), app_nil_r in Hopts. subst pre.
  rewrite Hw, Hh. unfold by_priority. split.
  - destruct (last_flag_arg "W" _) as [a|] eqn:E.
    + apply last_flag_arg_in, flag_args_in, HW in E. lia.
    + destruct (getenv env "LV_SIM_WINDOW_WIDTH") as [v|]; [|lia].
      specialize (Ew v eq_refl). lia.
  - destruct (last_flag_arg "H" _) as [a|] eqn:E.
    + apply last_flag_arg_in, flag_args_in, HH in E. lia.
    + destruct (getenv env "LV_SIM_WINDOW_HEIGHT") as [v|]; [|lia].
      specialize (Eh v eq_refl). lia.
Qed.

(** An instance: the width from [-W 1024], the height from the
    environment. *)
Lemma window_size_positive_witness :
  let env := [("LV_SIM_WINDOW_HEIGHT", "600")] in
  let argv := ["lvglsim"; "-W"; "1024"] in
  let final :=
    {| settings := {| window_width := 1024; window_height := 600 |};
       selected_backend := None;
       trace := [EvRegister] |} in
  configure_simulator conf_evdev sdl_only env argv (initial_state zero_settings)
    = (Normal tt, final) /\
  (forall a, In (GotOpt "W" (Some a)) (command_line_options env argv) -> 0 < atoi a) /\
  (forall a, In (GotOpt "H" (Some a)) (command_line_options env argv) -> 0 < atoi a) /\
  (forall v, getenv env "LV_SIM_WINDOW_WIDTH" = Some v -> 0 < atoi v) /\
  (forall v, getenv env "LV_SIM_WINDOW_HEIGHT" = Some v -> 0 < atoi v) /\
  window_width (settings final) > 0 /\ window_height (settings final) > 0.
Proof.
  cbn zeta.
  assert (HW : forall a,
             In (GotOpt "W" (Some a))
                (command_line_options [("LV_SIM_WINDOW_HEIGHT", "600")]
                   ["lvglsim"; "-W"; "1024"]) -> 0 < atoi a).
  { intros a [H | []]. inversion H. reflexivity. }
  assert (HH : forall a,
             In (GotOpt "H" (Some a))
                (command_line_options [("LV_SIM_WINDOW_HEIGHT", "600")]
                   ["lvglsim"; "-W"; "1024"]) -> 0 < atoi a).
  { intros a [H | []]. discriminate H. }
  assert (Ew : forall v,
             getenv [("LV_SIM_WINDOW_HEIGHT", "600")] "LV_SIM_WINDOW_WIDTH" = Some v ->
             0 < atoi v).
  { intros v H. discriminate H. }
  assert (Eh : forall v,
             getenv [("LV_SIM_WINDOW_HEIGHT", "600")] "LV_SIM_WINDOW_HEIGHT" = Some v ->
             0 < atoi v).
  { intros v H. inversion H. reflexivity. }
  split; [reflexivity|].
  split; [exact HW|]. split; [exact HH|]. split; [exact Ew|]. split; [exact Eh|].
  apply (window_size_positive conf_evdev sdl_only
           [("LV_SIM_WINDOW_HEIGHT", "600")] ["lvglsim"; "-W"; "1024"]
           (initial_state zero_settings) _ eq_refl HW HH Ew Eh).
Defined.

(** C6 as stated fails: [lvglsim -W 0] with LV_SIM_WINDOW_HEIGHT set to
    a word that is no number makes [configure_simulator] return with a
    window of width 0 and height 0. *)
Lemma zero_window_size_counterexample :
  let env := [("LV_SIM_WINDOW_HEIGHT", "tall")] in
  let argv := ["lvglsim"; "-W"; "0"] in
  let final :=
    {| settings := {| window_width := 0; window_height := 0 |};
       selected_backend := None;
       trace := [EvRegister] |} in
  configure_simulator conf_evdev sdl_only env argv (initial_state zero_settings)
    = (Normal tt, final) /\
  ~ (window_width (settings final) > 0 /\ window_height (settings final) > 0).
Proof.
  cbn zeta. split; [reflexivity|].
  cbn [settings window_width window_height]. intros [H _]. discriminate H.
Qed.

(** ** Further properties of [configure_simulator] and [main] *)

Lemma fatal_messages_app (t1 t2 : list event) :
  fatal_messages (t1 ++ t2) = fatal_messages t1 ++ fatal_messages t2.
Proof.
  induction t1 as [|e t1 IH]; [reflexivity|].
  destruct e; cbn; now rewrite ?IH.
Qed.

Lemma fatal_messages_queries (names : list string) :
  fatal_messages (map EvIsSupported names) = [].
Proof. induction names as [|n names IH]; [reflexivity | exact IH]. Qed.

(** What the loop does at a flag that ends the process: the exit
    status, and the one message of [die] when the status is not 0. *)
Lemma parse_options_head_ends_report
      (conf : lv_conf) (drv : driver_backends) (r : getopt_ret) (s : state) :
  option_view r -> ends_process drv r = true ->
  exists t,
    (forall rs,
        parse_options conf drv (r :: rs) s =
        (Exited (exit_status_of r),
         {| settings := settings s;
            selected_backend := selected_backend s;
            trace := trace s ++ t |})) /\
    configuring t /\
    ((exit_status_of r = EXIT_SUCCESS /\ fatal_messages t = []) \/
     (exit_status_of r = EXIT_FAILURE /\
      exists t' fmt args,
        t = t' ++ [EvDie fmt args] /\ fatal_messages t' = [] /\
        In fmt ["error no such backend: %s\n"; "Unknown option -%c.\n"])).
Proof.
  intros V E. destruct V; try discriminate E.
  - eexists. split; [intros rs; cbn; rewrite <- ?app_assoc; reflexivity|].
    split; [apply no_startup_configuring; reflexivity|]. left. now split.
  - eexists. split; [intros rs; cbn; rewrite <- ?app_assoc; reflexivity|].
    split; [apply no_startup_configuring; reflexivity|]. left. now split.
  - eexists. split; [intros rs; cbn; rewrite <- ?app_assoc; reflexivity|].
    split; [apply no_startup_configuring; reflexivity|]. left. now split.
  - cbn in E. exists [EvIsSupported name;
                      EvDie "error no such backend: %s\n" [ArgStr name]].
    split; [intros rs; apply parse_unsupported_backend; now apply Z.eqb_eq|].
    split; [apply no_startup_configuring; reflexivity|]. right.
    split; [reflexivity|]. exists [EvIsSupported name]. do 2 eexists.
    split; [reflexivity|]. split; [reflexivity|]. now left.
  - eexists. split; [intros rs; apply parse_rejected_flag; eauto|].
    split; [apply no_startup_configuring; reflexivity|]. right.
    split; [reflexivity|].
    exists (EvGetoptError (GotInvalid c) :: usage_events). do 2 eexists.
    split; [reflexivity|]. split; [reflexivity|]. right. now left.
  - eexists. split; [intros rs; apply parse_rejected_flag; eauto|].
    split; [apply no_startup_configuring; reflexivity|]. right.
    split; [reflexivity|].
    exists (EvGetoptError (GotMissing c) :: usage_events). do 2 eexists.
    split; [reflexivity|]. split; [reflexivity|]. right. now left.
Qed.

(** The whole run of [main] from the start of the process, by cases on
    the command line: either a first flag ends the process, or the
    options are parsed to the end and the start-up follows. *)
Lemma main_run
      (conf : lv_conf) (drv : driver_backends)
      (env : environ) (argv : list string) (s0 : simulator_settings_t) :
  (exists pre r post t s1,
      command_line_options env argv = pre ++ r :: post /\
      existsb (ends_process drv) pre = false /\
      ends_process drv r = true /\ option_view r /\
      trace s1 = EvRegister :: map EvIsSupported (flag_args "b" pre) /\
      configure_simulator conf drv env argv (initial_state s0) =
        (Exited (exit_status_of r),
         {| settings := settings s1;
            selected_backend := selected_backend s1;
            trace := trace s1 ++ t |}) /\
      main conf drv env argv (initial_state s0) =
        (Exited (exit_status_of r),
         {| settings := settings s1;
            selected_backend := selected_backend s1;
            trace := trace s1 ++ t |}) /\
      configuring t /\
      ((exit_status_of r = EXIT_SUCCESS /\ fatal_messages t = []) \/
       (exit_status_of r = EXIT_FAILURE /\
        exists t' fmt args,
          t = t' ++ [EvDie fmt args] /\ fatal_messages t' = [] /\
          In fmt ["error no such backend: %s\n"; "Unknown option -%c.\n"]))) \/
  (exists s1 o ts,
      existsb (ends_process drv) (command_line_options env argv) = false /\
      configure_simulator conf drv env argv (initial_state s0) = (Normal tt, s1) /\
      trace s1 = EvRegister ::
                   map EvIsSupported (flag_args "b" (command_line_options env argv)) /\
      selected_backend s1 = last_flag_arg "b" (command_line_options env argv) /\
      main conf drv env argv (initial_state s0) =
        (o, {| settings := settings s1;
               selected_backend := selected_backend s1;
               trace := trace s1 ++ ts |}) /\
      startup_shape (LV_USE_EVDEV conf) (selected_backend s1) ts o).
Proof.
  destruct (existsb (ends_process drv) (command_line_options env argv)) eqn:E.
  - left.
    destruct (first_ending_flag drv _ E) as (pre & r & post & Hopts & Hpre & Hr).
    destruct (configure_reaches conf drv env argv (initial_state s0) pre _ Hopts Hpre)
      as (s1 & Hcfg & Ht & _).
    assert (Vr : option_view r).
    { pose proof (command_line_options_view env argv) as V.
      rewrite Hopts in V. apply Forall_app in V. destruct V as [_ V].
      now inversion V. }
    destruct (parse_options_head_ends_report conf drv r s1 Vr Hr)
      as (t & Hrun & Hc & Hdie).
    rewrite Hrun in Hcfg.
    exists pre, r, post, t, s1. repeat split; auto.
    now apply main_configure_exits.
  - right.
    destruct (configure_reaches conf drv env argv (initial_state s0)
                (command_line_options env argv) [] (eq_sym (app_nil_r _)) E)
      as (s1 & Hcfg & Ht & _ & _ & Hb).
    cbn [parse_options ret] in Hcfg.
    destruct (main_startup conf drv env argv _ s1 Hcfg) as (o & ts & Hmain & Hshape).
    exists s1, o, ts. repeat split; auto.
Qed.

(** X1: when [-V] is reached, no flag before it ending the process, the
    last thing the program does is to print the version with the format
    of three numbers separated by dots, a dash and the info string; it
    then exits with status 0 without any start-up. *)
Theorem version_flag_prints_version
        (conf : lv_conf) (drv : driver_backends)
        (env : environ) (argv : list string) (s0 : simulator_settings_t)
        (pre post : list getopt_ret) :
  command_line_options env argv = pre ++ GotOpt "V" None :: post ->
  existsb (ends_process drv) pre = false ->
  exists s,
    main conf drv env argv (initial_state s0) = (Exited EXIT_SUCCESS, s) /\
    trace s = EvRegister :: map EvIsSupported (flag_args "b" pre) ++
                [EvStdout "%d.%d.%d-%s\n"
                   [ArgInt (LVGL_VERSION_MAJOR conf);
                    ArgInt (LVGL_VERSION_MINOR conf);
                    ArgInt (LVGL_VERSION_PATCH conf);
                    ArgStr (LVGL_VERSION_INFO conf)]].
Proof.
  intros Hopts Hpre.
  destruct (configure_reaches conf drv env argv (initial_state s0) pre _ Hopts Hpre)
    as (s1 & Hcfg & Ht & _).
  cbn in Hcfg. cbn [initial_state trace app] in Ht.
  eexists. split; [apply main_configure_exits; exact Hcfg|].
  cbn [trace]. now rewrite Ht.
Qed.

(** An instance: [-V] after a supported [-b]. *)
Lemma version_flag_prints_version_witness :
  let argv := ["lvglsim"; "-b"; "SDL"; "-V"] in
  command_line_options [] argv = [GotOpt "b" (Some "SDL")] ++ GotOpt "V" None :: [] /\
  existsb (ends_process sdl_only) [GotOpt "b" (Some "SDL")] = false /\
  exists s,
    main conf_evdev sdl_only [] argv (initial_state zero_settings)
      = (Exited EXIT_SUCCESS, s) /\
    trace s = EvRegister :: map EvIsSupported (flag_args "b" [GotOpt "b" (Some "SDL")]) ++
                [EvStdout "%d.%d.%d-%s\n" [ArgInt 9; ArgInt 2; ArgInt 0; ArgStr "dev"]].
Proof.
  cbn zeta. split; [reflexivity|]. split; [reflexivity|].
  apply (version_flag_prints_version conf_evdev sdl_only []
           ["lvglsim"; "-b"; "SDL"; "-V"] zero_settings
           [GotOpt "b" (Some "SDL")] []); reflexivity.
Defined.

(** X2: when [-h] is reached, no flag before it ending the process, the
    program prints the three lines of the usage on stdout, nothing
    else, and exits with status 0; the usage is the same text that a
    rejected flag gets, but here nothing goes through [die]. *)
Theorem help_flag_prints_usage
        (conf : lv_conf) (drv : driver_backends)
        (env : environ) (argv : list string) (s0 : simulator_settings_t)
        (pre post : list getopt_ret) :
  command_line_options env argv = pre ++ GotOpt "h" None :: post ->
  existsb (ends_process drv) pre = false ->
  exists s,
    main conf drv env argv (initial_state s0) = (Exited EXIT_SUCCESS, s) /\
    trace s = EvRegister :: map EvIsSupported (flag_args "b" pre) ++ usage_events /\
    fatal_messages (trace s) = [].
Proof.
  intros Hopts Hpre.
  destruct (configure_reaches conf drv env argv (initial_state s0) pre _ Hopts Hpre)
    as (s1 & Hcfg & Ht & _).
  cbn in Hcfg. cbn [initial_state trace app] in Ht.
  eexists. split; [apply main_configure_exits; exact Hcfg|].
  cbn [trace]. rewrite <- !app_assoc, Ht. cbn [app].
  split; [reflexivity|].
  change (fatal_messages ([EvRegister] ++ map EvIsSupported (flag_args "b" pre)
                            ++ usage_events) = []).
  now rewrite !fatal_messages_app, fatal_messages_queries.
Qed.

(** An instance: [-h] as the only flag. *)
Lemma help_flag_prints_usage_witness :
  let argv := ["lvglsim"; "-h"] in
  command_line_options [] argv = [] ++ GotOpt "h" None :: [] /\
  existsb (ends_process sdl_only) [] = false /\
  exists s,
    main conf_evdev sdl_only [] argv (initial_state zero_settings)
      = (Exited EXIT_SUCCESS, s) /\
    trace s = EvRegister :: map EvIsSupported (flag_args "b" []) ++ usage_events /\
    fatal_messages (trace s) = [].
Proof.
  cbn zeta. split; [reflexivity|]. split; [reflexivity|].
  apply (help_flag_prints_usage conf_evdev sdl_only [] ["lvglsim"; "-h"]
           zero_settings [] []); reflexivity.
Defined.

Lemma passing_backends_supported (drv : driver_backends)
      (rs : list getopt_ret) (name : string) :
  existsb (ends_process drv) rs = false ->
  In name (flag_args "b" rs) ->
  is_supported_result drv name <> 0.
Proof.
  intros E Hin Hbad. apply flag_args_in in Hin.
  assert (H : existsb (ends_process drv) rs = true); [|congruence].
  apply existsb_exists. exists (GotOpt "b" (Some name)). split; [exact Hin|].
  cbn. now rewrite Hbad.
Qed.

(** X3: when [configure_simulator] returns, it has asked the registry
    about the name of every [-b] flag of the command line, in order and
    about nothing else, every one of these names is supported, and the
    selected back-end is the name of the last [-b] flag, or NULL when
    there is none. *)
Theorem every_backend_flag_validated
        (conf : lv_conf) (drv : driver_backends)
        (env : environ) (argv : list string) (s0 : simulator_settings_t)
        (s : state) :
  configure_simulator conf drv env argv (initial_state s0) = (Normal tt, s) ->
  validated_names (trace s) = flag_args "b" (command_line_options env argv) /\
  (forall name, In name (flag_args "b" (command_line_options env argv)) ->
                is_supported_result drv name <> 0) /\
  selected_backend s = last_flag_arg "b" (command_line_options env argv).
Proof.
  intros H.
  destruct (main_run conf drv env argv s0)
    as [(pre & r & post & t & s1 & _ & _ & _ & _ & _ & Hcfg & _)
       |(s1 & o & ts & E & Hcfg & Ht & Hb & _)];
    rewrite H in Hcfg; [discriminate Hcfg|].
  inversion Hcfg; subst s1. clear Hcfg.
  split; [|split].
  - rewrite Ht. cbn [validated_names]. apply validated_names_queries.
  - intros name. now apply passing_backends_supported.
  - exact Hb.
Qed.

(** An instance: two supported [-b] flags. *)
Lemma every_backend_flag_validated_witness :
  let argv := ["lvglsim"; "-b"; "SDL"; "-b"; "SDL"] in
  let final :=
    {| settings := {| window_width := 800; window_height := 480 |};
       selected_backend := Some "SDL";
       trace := [EvRegister; EvIsSupported "SDL"; EvIsSupported "SDL"] |} in
  configure_simulator conf_evdev sdl_only [] argv (initial_state zero_settings)
    = (Normal tt, final) /\
  validated_names (trace final) = flag_args "b" (command_line_options [] argv) /\
  (forall name, In name (flag_args "b" (command_line_options [] argv)) ->
                is_supported_result sdl_only name <> 0) /\
  selected_backend final = last_flag_arg "b" (command_line_options [] argv).
Proof.
  cbn zeta. split; [reflexivity|].
  apply (every_backend_flag_validated conf_evdev sdl_only []
           ["lvglsim"; "-b"; "SDL"; "-b"; "SDL"] zero_settings).
  reflexivity.
Defined.

(** X4: the first back-end [main] initialises is the one named by the
    last [-b] flag of the command line, a name the registry has
    accepted; without a [-b] flag [main] passes NULL, which asks for the
    default back-end. *)
Theorem primary_init_uses_last_backend_flag
        (conf : lv_conf) (drv : driver_backends)
        (env : environ) (argv : list string) (s0 : simulator_settings_t)
        (o : outcome Z) (s : state)
        (name : option string) (res : Z) (later : list (option string * Z)) :
  main conf drv env argv (initial_state s0) = (o, s) ->
  init_calls (trace s) = (name, res) :: later ->
  name = last_flag_arg "b" (command_line_options env argv) /\
  (forall n, name = Some n -> is_supported_result drv n <> 0).
Proof.
  intros Hmain Hcalls.
  destruct (main_run conf drv env argv s0)
    as [(pre & r & post & t & s1 & _ & _ & _ & _ & Ht & _ & Hmain' & Hc & _)
       |(s1 & o' & ts & E & _ & Ht & Hb & Hmain' & Hshape)];
    rewrite Hmain in Hmain'; inversion Hmain'; subst; clear Hmain'.
  - cbn [trace] in Hcalls.
    rewrite init_calls_app, (configuring_init_calls _ Hc), app_nil_r in Hcalls.
    rewrite configuring_init_calls in Hcalls; [discriminate Hcalls|].
    rewrite Ht. apply configuring_cons; [reflexivity | apply configuring_validated].
  - cbn [trace selected_backend] in *.
    rewrite init_calls_app, configuring_init_calls in Hcalls
      by (rewrite Ht; apply configuring_cons;
          [reflexivity | apply configuring_validated]).
    assert (Hname : name = selected_backend s1).
    { inversion Hshape; subst; cbn in Hcalls; now inversion Hcalls. }
    rewrite Hb in Hname. split; [exact Hname|].
    intros n Hn. apply (passing_backends_supported drv _ n E).
    apply last_flag_arg_in. congruence.
Qed.

(** An instance: the last of two [-b] flags is the one initialised. *)
Lemma primary_init_uses_last_backend_flag_witness :
  let argv := ["lvglsim"; "-bSDL"; "-W"; "640"; "-b"; "SDL"] in
  let final :=
    {| settings := {| window_width := 640; window_height := 480 |};
       selected_backend := Some "SDL";
       trace := [EvRegister; EvIsSupported "SDL"; EvIsSupported "SDL"; EvLvInit;
                 EvInitBackend (Some "SDL") 0; EvInitBackend (Some "EVDEV") 0;
                 EvScrollTest; EvRunLoop] |} in
  main conf_evdev sdl_only [] argv (initial_state zero_settings) = (Normal 0, final) /\
  init_calls (trace final) = (Some "SDL", 0) :: [(Some "EVDEV", 0)] /\
  Some "SDL" = last_flag_arg "b" (command_line_options [] argv) /\
  (forall n, Some "SDL" = Some n -> is_supported_result sdl_only n <> 0).
Proof.
  cbn zeta.
  assert (Hrun :
            main conf_evdev sdl_only [] ["lvglsim"; "-bSDL"; "-W"; "640"; "-b"; "SDL"]
              (initial_state zero_settings)
            = (Normal 0,
               {| settings := {| window_width := 640; window_height := 480 |};
                  selected_backend := Some "SDL";
                  trace := [EvRegister; EvIsSupported "SDL"; EvIsSupported "SDL";
                            EvLvInit; EvInitBackend (Some "SDL") 0;
                            EvInitBackend (Some "EVDEV") 0;
                            EvScrollTest; EvRunLoop] |}))
    by (vm_compute; reflexivity).
  split; [exact Hrun|]. split; [reflexivity|].
  exact (primary_init_uses_last_backend_flag conf_evdev sdl_only []
           ["lvglsim"; "-bSDL"; "-W"; "640"; "-b"; "SDL"] zero_settings
           (Normal 0) _ (Some "SDL") 0 [(Some "EVDEV", 0)] Hrun eq_refl).
Defined.

(** X5: the first flag that ends the process decides alone how the
    program ends: the exit status is 0 when it is [-h], [-V] or [-B]
    and that of [die] when it is a rejected flag or a [-b] with an
    unsupported name, whatever the flags after it, the environment and
    the driver library. *)
Theorem first_ending_flag_decides_status
        (conf : lv_conf) (drv : driver_backends)
        (env : environ) (argv : list string) (s0 : simulator_settings_t)
        (pre post : list getopt_ret) (r : getopt_ret) :
  command_line_options env argv = pre ++ r :: post ->
  existsb (ends_process drv) pre = false ->
  ends_process drv r = true ->
  fst (configure_simulator conf drv env argv (initial_state s0))
    = Exited (exit_status_of r) /\
  fst (main conf drv env argv (initial_state s0)) = Exited (exit_status_of r).
Proof.
  intros Hopts Hpre Hr.
  destruct (configure_reaches conf drv env argv (initial_state s0) pre _ Hopts Hpre)
    as (s1 & Hcfg & _).
  assert (Vr : option_view r).
  { pose proof (command_line_options_view env argv) as V.
    rewrite Hopts in V. apply Forall_app in V. destruct V as [_ V].
    now inversion V. }
  destruct (parse_options_head_ends_report conf drv r s1 Vr Hr) as (t & Hrun & _).
  rewrite Hrun in Hcfg. rewrite (main_configure_exits _ _ _ _ _ _ _ Hcfg), Hcfg.
  now split.
Qed.

(** An instance: an unsupported [-b] before [-h]. *)
Lemma first_ending_flag_decides_status_witness :
  let argv := ["lvglsim"; "-m"; "-b"; "none"; "-h"] in
  command_line_options [] argv
    = [GotOpt "m" None] ++ GotOpt "b" (Some "none") :: [GotOpt "h" None] /\
  existsb (ends_process sdl_only) [GotOpt "m" None] = false /\
  ends_process sdl_only (GotOpt "b" (Some "none")) = true /\
  fst (configure_simulator conf_evdev sdl_only [] argv (initial_state zero_settings))
    = Exited 1 /\
  fst (main conf_evdev sdl_only [] argv (initial_state zero_settings)) = Exited 1.
Proof.
  cbn zeta. split; [reflexivity|]. split; [reflexivity|]. split; [reflexivity|].
  apply (first_ending_flag_decides_status conf_evdev sdl_only []
           ["lvglsim"; "-m"; "-b"; "none"; "-h"] zero_settings
           [GotOpt "m" None] [GotOpt "h" None] (GotOpt "b" (Some "none")));
    reflexivity.
Defined.






Lemma startup_event_after_configuring
      (tc ts pre post : list event) (e : event) :
  configuring tc ->
  tc ++ ts = pre ++ e :: post ->
  is_startup_event e = true ->
  exists pre', pre = tc ++ pre' /\ ts = pre' ++ e :: post.
Proof.
  revert pre. induction tc as [|x tc IH]; intros pre Hc H He.
  - now exists pre.
  - destruct pre as [|y pre]; cbn in H; inversion H; subst.
    + assert (is_startup_event e = false) by (apply Hc; now left). congruence.
    + destruct (IH pre) as (pre' & -> & Hts); auto.
      * intros e' He'. apply Hc. now right.
      * now exists pre'.
Qed.

Lemma head_occurs_once {A} (x : A) (rest pre post : list A) :
  x :: rest = pre ++ x :: post -> ~ In x rest -> pre = [] /\ post = rest.
Proof.
  intros H Hnot. destruct pre as [|y pre]; cbn in H; inversion H; subst.
  - now split.
  - exfalso. apply Hnot. apply in_or_app. right. now left.
Qed.

Lemma trace_after_parsing_configuring (names : list string) :
  configuring (EvRegister :: map EvIsSupported names).
Proof. apply configuring_cons; [reflexivity | apply configuring_validated]. Qed.

(** X8: in every run [lv_init] is called at most once, and before any
    back-end is initialised, the demo screen is built or the run loop is
    entered.  Everything before [lv_init] belongs to the parsing of the
    command line, and after [lv_init] the program does nothing but the
    start-up or a [die] without arguments: no name is checked and
    nothing is printed on stdout any more. *)
Theorem lv_init_once_and_first
        (conf : lv_conf) (drv : driver_backends)
        (env : environ) (argv : list string) (s0 : simulator_settings_t)
        (o : outcome Z) (s : state) :
  main conf drv env argv (initial_state s0) = (o, s) ->
  (forall pre e post,
      trace s = pre ++ e :: post ->
      is_startup_event e = true -> e <> EvLvInit -> In EvLvInit pre) /\
  (forall pre post,
      trace s = pre ++ EvLvInit :: post ->
      configuring pre /\
      ~ In EvLvInit post /\
      forall e, In e post ->
                is_startup_event e = true \/ exists fmt, e = EvDie fmt []).
Proof.
  intros Hmain.
  destruct (main_run conf drv env argv s0)
    as [(pre0 & r & post0 & t & s1 & _ & _ & _ & _ & Ht & _ & Hmain' & Hc & _)
       |(s1 & o' & ts & _ & _ & Ht & _ & Hmain' & Hshape)];
    rewrite Hmain in Hmain'; inversion Hmain'; subst; clear Hmain'; cbn [trace].
  - assert (Hall : configuring (trace s1 ++ t)).
    { apply configuring_app; [|exact Hc]. rewrite Ht.
      apply trace_after_parsing_configuring. }
    split.
    + intros pre e post H He _.
      assert (is_startup_event e = false); [|congruence].
      apply Hall. rewrite H. apply in_or_app. right. now left.
    + intros pre post H.
      assert (is_startup_event EvLvInit = false); [|discriminate].
      apply Hall. rewrite H. apply in_or_app. right. now left.
  - assert (Hc : configuring (trace s1)).
    { rewrite Ht. apply trace_after_parsing_configuring. }
    split.
    + intros pre e post H He Hne.
      destruct (startup_event_after_configuring _ _ _ _ _ Hc H He)
        as (pre' & -> & Hts).
      apply in_or_app. right.
      destruct pre' as [|x pre'].
      * destruct Hshape; cbn in Hts; inversion Hts; congruence.
      * destruct Hshape; cbn in Hts; inversion Hts; now left.
    + intros pre post H.
      destruct (startup_event_after_configuring _ _ _ _ _ Hc H eq_refl)
        as (pre' & -> & Hts).
      assert (Hrest : exists rest,
                 ts = EvLvInit :: rest /\ ~ In EvLvInit rest /\
                 forall e, In e rest ->
                           is_startup_event e = true \/ exists fmt, e = EvDie fmt []).
      { clear Hts. destruct Hshape; eexists; (split; [reflexivity|]);
          (split; [cbn; intuition discriminate|]);
          intros e He; cbn in He; repeat destruct He as [<- | He];
          try contradiction; try (now left); right; eexists; reflexivity. }
      destruct Hrest as (rest & -> & Hnot & Hpost).
      destruct (head_occurs_once _ _ _ _ Hts Hnot) as [-> ->].
      rewrite app_nil_r. now split.
Qed.

(** An instance: the run of [lvglsim -b SDL], split at [lv_init]. *)
Lemma lv_init_once_and_first_witness :
  let final :=
    {| settings := {| window_width := 800; window_height := 480 |};
       selected_backend := Some "SDL";
       trace := [EvRegister; EvIsSupported "SDL"] ++ EvLvInit ::
                [EvInitBackend (Some "SDL") 0; EvInitBackend (Some "EVDEV") 0;
                 EvScrollTest; EvRunLoop] |} in
  main conf_evdev sdl_only [] ["lvglsim"; "-b"; "SDL"] (initial_state zero_settings)
    = (Normal 0, final) /\
  configuring [EvRegister; EvIsSupported "SDL"] /\
  ~ In EvLvInit [EvInitBackend (Some "SDL") 0; EvInitBackend (Some "EVDEV") 0;
                 EvScrollTest; EvRunLoop].
Proof.
  cbn zeta.
  assert (Hrun :
            main conf_evdev sdl_only [] ["lvglsim"; "-b"; "SDL"]
              (initial_state zero_settings)
            = (Normal 0,
               {| settings := {| window_width := 800; window_height := 480 |};
                  selected_backend := Some "SDL";
                  trace := [EvRegister; EvIsSupported "SDL"] ++ EvLvInit ::
                           [EvInitBackend (Some "SDL") 0;
                            EvInitBackend (Some "EVDEV") 0;
                            EvScrollTest; EvRunLoop] |}))
    by (vm_compute; reflexivity).
  split; [exact Hrun|].
  pose proof (proj2 (lv_init_once_and_first conf_evdev sdl_only []
                       ["lvglsim"; "-b"; "SDL"] zero_settings (Normal 0) _ Hrun)
                [EvRegister; EvIsSupported "SDL"]
                [EvInitBackend (Some "SDL") 0; EvInitBackend (Some "EVDEV") 0;
                 EvScrollTest; EvRunLoop] eq_refl) as H.
  split; [exact (proj1 H) | exact (proj1 (proj2 H))].
Defined.

(** X9: the process exits with the status of [die] exactly when [die]
    was called.  [die] is called at most once in a run, it is then the
    last thing the program does, and its message is one of four: the
    unknown back-end, the unknown option, and the two failed
    initialisations.  The message of the [case ':'] of the switch,
    "Option -%c requires an argument.", is never written. *)
Theorem failure_iff_fatal_message
        (conf : lv_conf) (drv : driver_backends)
        (env : environ) (argv : list string) (s0 : simulator_settings_t)
        (o : outcome Z) (s : state) :
  main conf drv env argv (initial_state s0) = (o, s) ->
  (o = Exited EXIT_FAILURE <-> fatal_messages (trace s) <> []) /\
  (forall fmt, In fmt (fatal_messages (trace s)) ->
     fatal_messages (trace s) = [fmt] /\
     In fmt reachable_fatal_messages /\
     fmt <> "Option -%c requires an argument.\n" /\
     exists t args, trace s = t ++ [EvDie fmt args]).
Proof.
  intros Hmain.
  assert (Hreach : forall fmt, In fmt reachable_fatal_messages ->
                               fmt <> "Option -%c requires an argument.\n").
  { intros fmt H. cbn in H. repeat destruct H as [<- | H]; try discriminate.
    contradiction. }
  destruct (main_run conf drv env argv s0)
    as [(pre0 & r & post0 & t & s1 & _ & _ & _ & _ & Ht & _ & Hmain' & _ & Hdie)
       |(s1 & o' & ts & _ & _ & Ht & _ & Hmain' & Hshape)];
    rewrite Hmain in Hmain'; inversion Hmain'; subst; clear Hmain'; cbn [trace];
    rewrite fatal_messages_app, Ht; cbn [fatal_messages];
    rewrite fatal_messages_queries; cbn [app].
  - destruct Hdie as [[Hs Hnone] | (Hs & t' & fmt & args & -> & Hnone & Hfmt)];
      rewrite Hs.
    + rewrite Hnone. split; [split; [discriminate | congruence]|]. intros fmt [].
    + rewrite fatal_messages_app, Hnone. cbn.
      split; [split; [discriminate | reflexivity]|].
      intros fmt' [<- | []]. split; [reflexivity|].
      assert (Hin : In fmt reachable_fatal_messages).
      { cbn in Hfmt. cbn. tauto. }
      split; [exact Hin|]. split; [now apply Hreach|].
      exists (EvRegister :: map EvIsSupported (flag_args "b" pre0) ++ t'), args.
      cbn [app]. now rewrite <- app_assoc.
  - destruct Hshape; cbn.
    + split; [split; [discriminate | reflexivity]|].
      intros fmt [<- | []]. split; [reflexivity|].
      split; [cbn; tauto|]. split; [discriminate|].
      eexists (_ :: _ ++ [_; _]), []. cbn [app]. rewrite <- app_assoc. reflexivity.
    + split; [split; [discriminate | reflexivity]|].
      intros fmt [<- | []]. split; [reflexivity|].
      split; [cbn; tauto|]. split; [discriminate|].
      eexists (_ :: _ ++ [_; _; _]), []. cbn [app]. rewrite <- app_assoc. reflexivity.
    + split; [split; [discriminate | congruence]|]. intros fmt [].
    + split; [split; [discriminate | congruence]|]. intros fmt [].
Qed.

(** An instance: a primary initialisation that fails. *)
Lemma failure_iff_fatal_message_witness :
  let failing :=
    {| is_supported_result := fun _ => 1; init_backend_result := fun _ _ => -1 |} in
  let final :=
    {| settings := {| window_width := 800; window_height := 480 |};
       selected_backend := None;
       trace := [EvRegister; EvLvInit; EvInitBackend None (-1);
                 EvDie "Failed to initialize display backend" []] |} in
  main conf_evdev failing [] ["lvglsim"] (initial_state zero_settings)
    = (Exited EXIT_FAILURE, final) /\
  fatal_messages (trace final) <> [].
Proof.
  cbn zeta.
  assert (Hrun :
            main conf_evdev
              {| is_supported_result := fun _ => 1;
                 init_backend_result := fun _ _ => -1 |}
              [] ["lvglsim"] (initial_state zero_settings)
            = (Exited EXIT_FAILURE,
               {| settings := {| window_width := 800; window_height := 480 |};
                  selected_backend := None;
                  trace := [EvRegister; EvLvInit; EvInitBackend None (-1);
                            EvDie "Failed to initialize display backend" []] |}))
    by (vm_compute; reflexivity).
  split; [exact Hrun|].
  exact (proj1 (proj1 (failure_iff_fatal_message conf_evdev _ [] ["lvglsim"]
                         zero_settings (Exited EXIT_FAILURE) _ Hrun)) eq_refl).
Defined.




(** ** [atoi] reads back decimal numerals *)

Lemma digits_of_uint_acc (d : Decimal.uint) (acc : positive) :
  digits (Z.pos acc) (DecimalString.NilEmpty.string_of_uint d)
  = Z.pos (Pos.of_uint_acc d acc).
Proof.
  revert acc. induction d as [|d IH|d IH|d IH|d IH|d IH|d IH|d IH|d IH|d IH|d IH];
    intros acc; cbn [DecimalString.NilEmpty.string_of_uint digits Pos.of_uint_acc];
    [reflexivity|..];
    match goal with
    | |- context [digit_of ?c] =>
        let v := eval cbv in (digit_of c) in change (digit_of c) with v
    end;
    cbv iota; rewrite <- IH; f_equal; lia.
Qed.

Lemma digits_of_uint (d : Decimal.uint) :
  digits 0 (DecimalString.NilEmpty.string_of_uint d) = Z.of_N (Pos.of_uint d).
Proof.
  induction d as [|d IH|d IH|d IH|d IH|d IH|d IH|d IH|d IH|d IH|d IH];
    cbn [DecimalString.NilEmpty.string_of_uint digits Pos.of_uint];
    [reflexivity|..];
    match goal with
    | |- context [digit_of ?c] =>
        let v := eval cbv in (digit_of c) in change (digit_of c) with v
    end;
    cbv iota; [exact IH|..]; cbn [Z.of_N]; rewrite <- digits_of_uint_acc;
    reflexivity.
Qed.

Lemma all_digits_of_uint (d : Decimal.uint) :
  all_digits (DecimalString.NilEmpty.string_of_uint d) = true.
Proof. induction d; cbn; auto. Qed.

Lemma digits_of_pos (p : positive) :
  DecimalString.NilZero.string_of_uint (Pos.to_uint p)
    = DecimalString.NilEmpty.string_of_uint (Pos.to_uint p) /\
  DecimalString.NilEmpty.string_of_uint (Pos.to_uint p) <> "" /\
  digits 0 (DecimalString.NilEmpty.string_of_uint (Pos.to_uint p)) = Z.pos p.
Proof.
  pose proof (DecimalPos.Unsigned.to_uint_nonnil p) as Hnil.
  split; [|split].
  - unfold DecimalString.NilZero.string_of_uint.
    now destruct (Pos.to_uint p).
  - now destruct (Pos.to_uint p).
  - now rewrite digits_of_uint, DecimalPos.Unsigned.of_to.
Qed.

(** [atoi] is a left inverse of the decimal notation on the range of
    [int]. *)
Lemma atoi_decimal_roundtrip (n : Z) :
  - 2 ^ 31 <= n < 2 ^ 31 -> atoi (decimal n) = n.
Proof.
  intros Hn. unfold decimal. destruct n as [|p|p]; [reflexivity|..];
    cbn [Z.to_int DecimalString.NilZero.string_of_int];
    destruct (digits_of_pos p) as (-> & Hne & Hd).
  - rewrite atoi_decimal; [exact Hd | exact Hne | apply all_digits_of_uint | lia].
  - unfold atoi, strtol. cbn [skip_space isspace].
    change (isspace "-") with false. cbv iota. rewrite Hd.
    unfold to_int, LONG_MIN, LONG_MAX.
    rewrite Z.min_r by lia. rewrite Z.max_r by lia.
    rewrite Z.mod_small by lia. lia.
Qed.

(** ** The demo screen *)

Lemma creations_app (cs1 cs2 : list Demo.lv_call) :
  Demo.creations (cs1 ++ cs2) = Demo.creations cs1 ++ Demo.creations cs2.
Proof.
  induction cs1 as [|c cs1 IH]; [reflexivity|].
  destruct c; cbn; now rewrite ?IH.
Qed.

Lemma calls_of_app (fn : string) (cs1 cs2 : list Demo.lv_call) :
  Demo.calls_of fn (cs1 ++ cs2) = Demo.calls_of fn cs1 ++ Demo.calls_of fn cs2.
Proof.
  induction cs1 as [|c cs1 IH]; [reflexivity|].
  destruct c as [f p r | f o a]; cbn; [exact IH|].
  destruct (String.eqb f fn); cbn; now rewrite IH.
Qed.

(** One turn of the loop: three objects, one image source, one label
    text. *)
Lemma menu_button_effect (b : Demo.build) (panel : Demo.lv_obj) (i : nat)
      (st : Demo.lv_state) :
  exists cs,
    Demo.menu_button b panel i st
      = (tt, {| Demo.next_id := 3 + Demo.next_id st;
                Demo.calls := Demo.calls st ++ cs |}) /\
    Demo.creations cs = Demo.entry_objects panel (Demo.next_id st) /\
    Demo.calls_of "lv_image_set_src" cs
      = [(Demo.Obj (1 + Demo.next_id st),
          [Demo.ASym (nth i (Demo.menu_icons (Demo.LV_COLOR_DEPTH b)) "")])] /\
    Demo.calls_of "lv_label_set_text_fmt" cs
      = [(Demo.Obj (2 + Demo.next_id st),
          [Demo.AStr ("Scritte %" ++ Demo.LV_PRIu32 b); Demo.AInt (Z.of_nat i)])] /\
    Demo.calls_of "lv_obj_update_snap" cs = [].
Proof.
  eexists. split.
  - unfold Demo.menu_button, Demo.dbind, Demo.create, Demo.call.
    cbn [Demo.next_id Demo.calls]. rewrite <- !app_assoc. cbn [app]. reflexivity.
  - repeat split; reflexivity.
Qed.

(** The whole loop over [n] entries starting at index [first]. *)
Lemma for_loop_effect (b : Demo.build) (panel : Demo.lv_obj) (n first : nat)
      (st : Demo.lv_state) :
  exists cs,
    Demo.for_loop n first (Demo.menu_button b panel) st
      = (tt, {| Demo.next_id := 3 * n + Demo.next_id st;
                Demo.calls := Demo.calls st ++ cs |}) /\
    Demo.creations cs
      = flat_map (fun k => Demo.entry_objects panel (3 * k + Demo.next_id st))
                 (seq 0 n) /\
    Demo.calls_of "lv_image_set_src" cs
      = map (fun k => (Demo.Obj (1 + (3 * k + Demo.next_id st)),
                       [Demo.ASym (nth (first + k)
                                       (Demo.menu_icons (Demo.LV_COLOR_DEPTH b)) "")]))
            (seq 0 n) /\
    Demo.calls_of "lv_label_set_text_fmt" cs
      = map (fun k => (Demo.Obj (2 + (3 * k + Demo.next_id st)),
                       [Demo.AStr ("Scritte %" ++ Demo.LV_PRIu32 b);
                        Demo.AInt (Z.of_nat (first + k))]))
            (seq 0 n) /\
    Demo.calls_of "lv_obj_update_snap" cs = [].
Proof.
  revert first st. induction n as [|n IH]; intros first st.
  - exists []. cbn. rewrite app_nil_r. destruct st. repeat split; reflexivity.
  - destruct (menu_button_effect b panel first st) as (cs1 & Hrun1 & Hc1 & Hi1 & Hl1 & Hs1).
    destruct (IH (S first) {| Demo.next_id := 3 + Demo.next_id st;
                              Demo.calls := Demo.calls st ++ cs1 |})
      as (cs2 & Hrun2 & Hc2 & Hi2 & Hl2 & Hs2).
    cbn [Demo.next_id Demo.calls] in *.
    exists (cs1 ++ cs2). split.
    + cbn [Demo.for_loop]. unfold Demo.dbind at 1. rewrite Hrun1, Hrun2.
      rewrite app_assoc. do 2 f_equal. lia.
    + rewrite creations_app, !calls_of_app, Hc1, Hc2, Hi1, Hi2, Hl1, Hl2, Hs1, Hs2.
      cbn [seq]. rewrite <- (seq_shift n 0). cbn [flat_map map app].
      rewrite (flat_map_concat_map _ (map S (seq 0 n))), !map_map,
        <- flat_map_concat_map.
      replace (first + 0)%nat with first by lia.
      replace (3 * 0 + Demo.next_id st)%nat with (Demo.next_id st) by lia.
      repeat split.
      * f_equal. apply flat_map_ext. intros k. f_equal. lia.
      * f_equal. apply map_ext. intros k. do 2 f_equal; [f_equal; lia|].
        do 2 f_equal. lia.
      * f_equal. apply map_ext. intros k. do 2 f_equal; [f_equal; lia|].
        do 3 f_equal. lia.
Qed.

Lemma menu_icons_length (d : Demo.color_depth) :
  List.length (Demo.menu_icons d) = 10%nat.
Proof. now destruct d. Qed.

Lemma map_nth_seq {A} (l : list A) (d : A) :
  map (fun k => nth k l d) (seq 0 (List.length l)) = l.
Proof.
  induction l as [|x l IH]; [reflexivity|].
  cbn [List.length]. rewrite <- cons_seq, <- seq_shift. cbn [map nth].
  rewrite map_map. cbn [nth]. now rewrite IH.
Qed.

Lemma dbind_screen {B} (k : Demo.lv_obj -> Demo.D B) (st : Demo.lv_state) :
  Demo.dbind Demo.lv_screen_active k st = k Demo.Screen st.
Proof. reflexivity. Qed.

Lemma dbind_call {B} (fn : string) (o : Demo.lv_obj) (args : list Demo.lv_arg)
      (k : unit -> Demo.D B) (st : Demo.lv_state) :
  Demo.dbind (Demo.call fn o args) k st
  = k tt {| Demo.next_id := Demo.next_id st;
            Demo.calls := Demo.calls st ++ [Demo.Call fn o args] |}.
Proof. reflexivity. Qed.

Lemma dbind_create {B} (fn : string) (parent : Demo.lv_obj)
      (k : Demo.lv_obj -> Demo.D B) (st : Demo.lv_state) :
  Demo.dbind (Demo.create fn parent) k st
  = k (Demo.Obj (Demo.next_id st))
      {| Demo.next_id := S (Demo.next_id st);
         Demo.calls := Demo.calls st
                         ++ [Demo.Create fn parent (Demo.Obj (Demo.next_id st))] |}.
Proof. reflexivity. Qed.

(** The whole of [lv_scroll_test], from a state with [n] objects. *)
Lemma lv_scroll_test_effect (b : Demo.build) (st : Demo.lv_state) :
  let n := Demo.next_id st in
  let panel := Demo.Obj (3 + n) in
  let st' := snd (Demo.lv_scroll_test b st) in
  Demo.next_id st' = (34 + n)%nat /\
  (exists cs, Demo.calls st' = Demo.calls st ++ cs) /\
  (exists cs,
      Demo.calls st'
        = cs ++ [Demo.Call "lv_obj_update_snap" panel [Demo.ASym "LV_ANIM_ON"]] /\
      Demo.calls_of "lv_obj_update_snap" cs
        = Demo.calls_of "lv_obj_update_snap" (Demo.calls st)) /\
  Demo.creations (Demo.calls st')
    = Demo.creations (Demo.calls st)
      ++ [("lv_label_create", Demo.Screen, Demo.Obj n);
          ("lv_label_create", Demo.Screen, Demo.Obj (1 + n));
          ("lv_label_create", Demo.Screen, Demo.Obj (2 + n));
          ("lv_obj_create", Demo.Screen, panel)]
      ++ flat_map (fun k => Demo.entry_objects panel (3 * k + (4 + n)))
                  (seq 0 10) /\
  Demo.calls_of "lv_image_set_src" (Demo.calls st')
    = Demo.calls_of "lv_image_set_src" (Demo.calls st)
      ++ map (fun k => (Demo.Obj (1 + (3 * k + (4 + n))),
                        [Demo.ASym (nth k (Demo.menu_icons (Demo.LV_COLOR_DEPTH b)) "")]))
             (seq 0 10) /\
  Demo.calls_of "lv_label_set_text_fmt" (Demo.calls st')
    = Demo.calls_of "lv_label_set_text_fmt" (Demo.calls st)
      ++ map (fun k => (Demo.Obj (2 + (3 * k + (4 + n))),
                        [Demo.AStr ("Scritte %" ++ Demo.LV_PRIu32 b);
                         Demo.AInt (Z.of_nat k)]))
             (seq 0 10).
Proof.
  intros n panel st'. subst n panel st'.
  unfold Demo.lv_scroll_test.
  repeat (first [rewrite dbind_screen | rewrite dbind_call | rewrite dbind_create];
          cbn [Demo.next_id Demo.calls]).
  rewrite menu_icons_length.
  match goal with
  | |- context [Demo.dbind (Demo.for_loop 10 0 (Demo.menu_button b ?p)) _ ?st0] =>
      destruct (for_loop_effect b p 10 0 st0) as (cs & Hrun & Hc & Hi & Hl & Hs)
  end.
  unfold Demo.dbind. rewrite Hrun. cbn [Demo.next_id Demo.calls] in *.
  unfold Demo.call. cbn [snd Demo.next_id Demo.calls].
  split; [reflexivity|].
  split; [eexists; rewrite <- !app_assoc; reflexivity|].
  split.
  { eexists. split; [reflexivity|].
    rewrite !calls_of_app, Hs. cbn. now rewrite !app_nil_r. }
  rewrite !creations_app, !calls_of_app, Hc, Hi, Hl.
  cbn [Demo.creations Demo.calls_of String.eqb Ascii.eqb Bool.eqb].
  rewrite !app_nil_r, <- !app_assoc. cbn [app].
  repeat split; reflexivity.
Qed.

(** X13: [lv_scroll_test] makes one menu entry per element of
    [menu_icons], in the order of the table: the images it sets with
    [lv_image_set_src] are exactly the ten icons of the table for the
    colour depth of the build, each once, and the entry of index [k]
    gets the label text of number [k]; the image and the label of an
    entry are the two objects created right after its button. *)
Theorem menu_follows_icon_table (b : Demo.build) (st : Demo.lv_state) :
  let n := Demo.next_id st in
  let st' := snd (Demo.lv_scroll_test b st) in
  exists images,
    Demo.calls_of "lv_image_set_src" (Demo.calls st')
      = Demo.calls_of "lv_image_set_src" (Demo.calls st) ++ images /\
    map snd images
      = map (fun icon => [Demo.ASym icon]) (Demo.menu_icons (Demo.LV_COLOR_DEPTH b)) /\
    map fst images = map (fun k => Demo.Obj (1 + (3 * k + (4 + n)))) (seq 0 10) /\
    Demo.calls_of "lv_label_set_text_fmt" (Demo.calls st')
      = Demo.calls_of "lv_label_set_text_fmt" (Demo.calls st)
        ++ map (fun k => (Demo.Obj (2 + (3 * k + (4 + n))),
                          [Demo.AStr ("Scritte %" ++ Demo.LV_PRIu32 b);
                           Demo.AInt (Z.of_nat k)]))
               (seq 0 10).
Proof.
  intros n st'. subst n st'.
  destruct (lv_scroll_test_effect b st) as (_ & _ & _ & _ & Hi & Hl).
  eexists. split; [exact Hi|]. rewrite !map_map. cbn [fst snd].
  split; [|split; [reflexivity | exact Hl]].
  rewrite <- (menu_icons_length (Demo.LV_COLOR_DEPTH b)).
  rewrite <- (map_nth_seq (Demo.menu_icons (Demo.LV_COLOR_DEPTH b)) "") at 2.
  now rewrite map_map.
Qed.

(** X14: the widget tree [lv_scroll_test] builds.  It creates 34 objects:
    three labels and the panel, children of the active screen, and for
    each of the ten menu entries an image button under the panel with an
    image and a label under that button; no plain button is created at
    either colour depth.  It keeps the calls made before it, and its
    last call is [lv_obj_update_snap] on the panel, the only one it
    makes, after all the entries are in place. *)
Theorem demo_widget_tree (b : Demo.build) (st : Demo.lv_state) :
  let n := Demo.next_id st in
  let panel := Demo.Obj (3 + n) in
  let st' := snd (Demo.lv_scroll_test b st) in
  Demo.next_id st' = (34 + n)%nat /\
  (exists cs, Demo.calls st' = Demo.calls st ++ cs) /\
  (exists cs,
      Demo.calls st'
        = cs ++ [Demo.Call "lv_obj_update_snap" panel [Demo.ASym "LV_ANIM_ON"]] /\
      Demo.calls_of "lv_obj_update_snap" cs
        = Demo.calls_of "lv_obj_update_snap" (Demo.calls st)) /\
  Demo.creations (Demo.calls st')
    = Demo.creations (Demo.calls st)
      ++ [("lv_label_create", Demo.Screen, Demo.Obj n);
          ("lv_label_create", Demo.Screen, Demo.Obj (1 + n));
          ("lv_label_create", Demo.Screen, Demo.Obj (2 + n));
          ("lv_obj_create", Demo.Screen, panel)]
      ++ flat_map (fun k => Demo.entry_objects panel (3 * k + (4 + n)))
                  (seq 0 10).
Proof.
  intros n panel st'. subst n panel st'.
  destruct (lv_scroll_test_effect b st) as (Hn & Hext & Hsnap & Hc & _).
  repeat split; assumption.
Qed.

Lemma configure_window_size
      (conf : lv_conf) (drv : driver_backends)
      (env : environ) (argv : list string) (s s' : state) :
  configure_simulator conf drv env argv s = (Normal tt, s') ->
  window_width (settings s') =
    by_priority (last_flag_arg "W" (command_line_options env argv))
                (getenv env "LV_SIM_WINDOW_WIDTH") 800 /\
  window_height (settings s') =
    by_priority (last_flag_arg "H" (command_line_options env argv))
                (getenv env "LV_SIM_WINDOW_HEIGHT") 480.
Proof.
  intros H.
  destruct (configure_settings conf drv env argv s)
    as (pre & post & Hopts & Hpost & Hw & Hh).
  rewrite H in Hpost, Hw, Hh. cbn [fst snd] in *.
  rewrite (Hpost eq_refl), app_nil_r in Hopts. subst pre. now split.
Qed.

(** X12: a window size written as a decimal numeral is read back as the
    number it denotes.  When [configure_simulator] returns and the value
    in force for the width (the argument of the last [-W], or without a
    [-W] flag the value of LV_SIM_WINDOW_WIDTH) is the decimal notation
    of a number [w] between 0 and 2^31 - 1, the window width is [w]; the
    same holds for the height with [-H] and LV_SIM_WINDOW_HEIGHT. *)
Theorem decimal_window_size_read_back
        (conf : lv_conf) (drv : driver_backends)
        (env : environ) (argv : list string) (s s' : state) :
  configure_simulator conf drv env argv s = (Normal tt, s') ->
  (forall w, 0 <= w < 2 ^ 31 ->
     in_force (last_flag_arg "W" (command_line_options env argv))
              (getenv env "LV_SIM_WINDOW_WIDTH") (decimal w) ->
     window_width (settings s') = w) /\
  (forall h, 0 <= h < 2 ^ 31 ->
     in_force (last_flag_arg "H" (command_line_options env argv))
              (getenv env "LV_SIM_WINDOW_HEIGHT") (decimal h) ->
     window_height (settings s') = h).
Proof.
  intros H. destruct (configure_window_size conf drv env argv s s' H) as [Hw Hh].
  split.
  - intros w Hrange Hsrc. rewrite Hw.
    destruct Hsrc as [-> | [-> ->]]; cbn [by_priority];
      apply atoi_decimal_roundtrip; lia.
  - intros h Hrange Hsrc. rewrite Hh.
    destruct Hsrc as [-> | [-> ->]]; cbn [by_priority];
      apply atoi_decimal_roundtrip; lia.
Qed.

(** An instance: the width 1280 from the flag, the height 720 from the
    environment. *)
Lemma decimal_window_size_read_back_witness :
  let env := [("LV_SIM_WINDOW_HEIGHT", "720")] in
  let argv := ["lvglsim"; "-W"; "1280"] in
  let final :=
    {| settings := {| window_width := 1280; window_height := 720 |};
       selected_backend := None;
       trace := [EvRegister] |} in
  configure_simulator conf_evdev sdl_only env argv (initial_state zero_settings)
    = (Normal tt, final) /\
  decimal 1280 = "1280" /\ decimal 720 = "720" /\
  window_width (settings final) = 1280 /\
  window_height (settings final) = 720.
Proof.
  cbn zeta.
  assert (Hrun :
            configure_simulator conf_evdev sdl_only
              [("LV_SIM_WINDOW_HEIGHT", "720")] ["lvglsim"; "-W"; "1280"]
              (initial_state zero_settings)
            = (Normal tt,
               {| settings := {| window_width := 1280; window_height := 720 |};
                  selected_backend := None;
                  trace := [EvRegister] |}))
    by (vm_compute; reflexivity).
  split; [exact Hrun|]. split; [vm_compute; reflexivity|].
  split; [vm_compute; reflexivity|].
  pose proof (decimal_window_size_read_back conf_evdev sdl_only
                [("LV_SIM_WINDOW_HEIGHT", "720")] ["lvglsim"; "-W"; "1280"]
                (initial_state zero_settings) _ Hrun) as H.
  split.
  - apply (proj1 H 1280); [lia | left; vm_compute; reflexivity].
  - apply (proj2 H 720); [lia | right; split; vm_compute; reflexivity].
Defined.

Lemma atoi_not_a_number (a : string) :
  not_a_number a = true -> atoi a = 0.
Proof.
  destruct a as [|c rest]; [reflexivity|].
  destruct c as [[] [] [] [] [] [] [] []]; cbn; intros H;
    try discriminate H; reflexivity.
Qed.

(** X15: a window size in which [atoi] finds no number is taken as 0,
    silently.  When [configure_simulator] returns and the value in force
    for the width is empty or starts with a character that is neither
    white space, a sign nor a digit, the window width is 0; the same
    holds for the height. *)
Theorem unreadable_window_size_is_zero
        (conf : lv_conf) (drv : driver_backends)
        (env : environ) (argv : list string) (s s' : state) :
  configure_simulator conf drv env argv s = (Normal tt, s') ->
  (forall a, not_a_number a = true ->
     in_force (last_flag_arg "W" (command_line_options env argv))
              (getenv env "LV_SIM_WINDOW_WIDTH") a ->
     window_width (settings s') = 0) /\
  (forall a, not_a_number a = true ->
     in_force (last_flag_arg "H" (command_line_options env argv))
              (getenv env "LV_SIM_WINDOW_HEIGHT") a ->
     window_height (settings s') = 0).
Proof.
  intros H. destruct (configure_window_size conf drv env argv s s' H) as [Hw Hh].
  split.
  - intros a Ha Hsrc. rewrite Hw.
    destruct Hsrc as [-> | [-> ->]]; cbn [by_priority]; now apply atoi_not_a_number.
  - intros a Ha Hsrc. rewrite Hh.
    destruct Hsrc as [-> | [-> ->]]; cbn [by_priority]; now apply atoi_not_a_number.
Qed.

(** An instance: an empty width on the command line, a word as height
    in the environment. *)
Lemma unreadable_window_size_is_zero_witness :
  let env := [("LV_SIM_WINDOW_HEIGHT", "full")] in
  let argv := ["lvglsim"; "-W"; ""] in
  let final :=
    {| settings := {| window_width := 0; window_height := 0 |};
       selected_backend := None;
       trace := [EvRegister] |} in
  configure_simulator conf_evdev sdl_only env argv (initial_state zero_settings)
    = (Normal tt, final) /\
  not_a_number "" = true /\ not_a_number "full" = true /\
  window_width (settings final) = 0 /\
  window_height (settings final) = 0.
Proof.
  cbn zeta.
  assert (Hrun :
            configure_simulator conf_evdev sdl_only
              [("LV_SIM_WINDOW_HEIGHT", "full")] ["lvglsim"; "-W"; ""]
              (initial_state zero_settings)
            = (Normal tt,
               {| settings := {| window_width := 0; window_height := 0 |};
                  selected_backend := None;
                  trace := [EvRegister] |}))
    by (vm_compute; reflexivity).
  split; [exact Hrun|]. split; [reflexivity|]. split; [reflexivity|].
  pose proof (unreadable_window_size_is_zero conf_evdev sdl_only
                [("LV_SIM_WINDOW_HEIGHT", "full")] ["lvglsim"; "-W"; ""]
                (initial_state zero_settings) _ Hrun) as H.
  split.
  - apply (proj1 H ""); [reflexivity | left; vm_compute; reflexivity].
  - apply (proj2 H "full"); [reflexivity | right; split; vm_compute; reflexivity].
Defined.

Lemma digits_stop (s : string) (c : ascii) (rest : string) (acc : Z) :
  all_digits s = true -> digit_of c = None ->
  digits acc (s ++ String c rest) = digits acc s.
Proof.
  revert acc. induction s as [|d s IH]; intros acc Hs Hc; cbn [append digits].
  - now rewrite Hc.
  - cbn [all_digits] in Hs. destruct (digit_of d); [|discriminate Hs]. now apply IH.
Qed.

Lemma decimal_nonnegative (w : Z) :
  0 <= w ->
  decimal w <> "" /\ all_digits (decimal w) = true /\ digits 0 (decimal w) = w.
Proof.
  intros Hw. unfold decimal. destruct w as [|p|p]; [|..|lia].
  - repeat split; discriminate.
  - cbn [Z.to_int DecimalString.NilZero.string_of_int].
    destruct (digits_of_pos p) as (-> & Hne & Hd).
    repeat split; auto using all_digits_of_uint.
Qed.

(** [atoi] stops at the first character that is not a digit. *)
Lemma atoi_stops_after_number (w : Z) (c : ascii) (rest : string) :
  0 <= w < 2 ^ 31 -> digit_of c = None ->
  atoi (decimal w ++ String c rest) = w.
Proof.
  intros Hw Hc. destruct (decimal_nonnegative w (proj1 Hw)) as (Hne & Hd & Hv).
  destruct (decimal w) as [|d s] eqn:E; [contradiction|].
  cbn [all_digits] in Hd. destruct (digit_of d) as [v|] eqn:Ed; [|discriminate Hd].
  destruct (digit_not_space_or_sign d v Ed) as (Hsp & Hm & Hp).
  assert (Hv' : digits 0 (String d s ++ String c rest) = w).
  { rewrite digits_stop; [exact Hv | | exact Hc]. cbn [all_digits]. now rewrite Ed. }
  unfold atoi, strtol. cbn [append skip_space]. rewrite Hsp.
  assert (Hsign : match String d (s ++ String c rest) with
                  | String "-" s' => (true, s')
                  | String "+" s' => (false, s')
                  | _ => (false, String d (s ++ String c rest))
                  end = (false, String d (s ++ String c rest))).
  { destruct d as [[] [] [] [] [] [] [] []]; try reflexivity; congruence. }
  rewrite Hsign. cbn [append] in Hv'. rewrite Hv'.
  unfold to_int, LONG_MIN, LONG_MAX.
  rewrite Z.min_r by lia. rewrite Z.max_r by lia.
  rewrite Z.mod_small by lia. lia.
Qed.

(** X16: what follows the number in a window size is ignored.  When
    [configure_simulator] returns and the value in force for the width
    is the decimal notation of [w], between 0 and 2^31 - 1, followed by
    any text that does not start with a digit, the window width is [w];
    the same holds for the height. *)
Theorem text_after_window_size_ignored
        (conf : lv_conf) (drv : driver_backends)
        (env : environ) (argv : list string) (s s' : state) :
  configure_simulator conf drv env argv s = (Normal tt, s') ->
  (forall w c rest, 0 <= w < 2 ^ 31 -> digit_of c = None ->
     in_force (last_flag_arg "W" (command_line_options env argv))
              (getenv env "LV_SIM_WINDOW_WIDTH") (decimal w ++ String c rest) ->
     window_width (settings s') = w) /\
  (forall h c rest, 0 <= h < 2 ^ 31 -> digit_of c = None ->
     in_force (last_flag_arg "H" (command_line_options env argv))
              (getenv env "LV_SIM_WINDOW_HEIGHT") (decimal h ++ String c rest) ->
     window_height (settings s') = h).
Proof.
  intros H. destruct (configure_window_size conf drv env argv s s' H) as [Hw Hh].
  split.
  - intros w c rest Hrange Hc Hsrc. rewrite Hw.
    destruct Hsrc as [-> | [-> ->]]; cbn [by_priority];
      now apply atoi_stops_after_number.
  - intros h c rest Hrange Hc Hsrc. rewrite Hh.
    destruct Hsrc as [-> | [-> ->]]; cbn [by_priority];
      now apply atoi_stops_after_number.
Qed.

(** An instance: [-W 800px] and [-H 480.5]. *)
Lemma text_after_window_size_ignored_witness :
  let argv := ["lvglsim"; "-W"; "800px"; "-H"; "480.5"] in
  let final :=
    {| settings := {| window_width := 800; window_height := 480 |};
       selected_backend := None;
       trace := [EvRegister] |} in
  configure_simulator conf_evdev sdl_only [] argv (initial_state zero_settings)
    = (Normal tt, final) /\
  (decimal 800 ++ String "p" "x")%string = "800px" /\
  (decimal 480 ++ String "." "5")%string = "480.5" /\
  window_width (settings final) = 800 /\
  window_height (settings final) = 480.
Proof.
  cbn zeta.
  assert (Hrun :
            configure_simulator conf_evdev sdl_only
              [] ["lvglsim"; "-W"; "800px"; "-H"; "480.5"]
              (initial_state zero_settings)
            = (Normal tt,
               {| settings := {| window_width := 800; window_height := 480 |};
                  selected_backend := None;
                  trace := [EvRegister] |}))
    by (vm_compute; reflexivity).
  split; [exact Hrun|]. split; [vm_compute; reflexivity|].
  split; [vm_compute; reflexivity|].
  pose proof (text_after_window_size_ignored conf_evdev sdl_only
                [] ["lvglsim"; "-W"; "800px"; "-H"; "480.5"]
                (initial_state zero_settings) _ Hrun) as H.
  split.
  - apply (proj1 H 800 "p"%char "x"); [lia | reflexivity | left; vm_compute; reflexivity].
  - apply (proj2 H 480 "."%char "5"); [lia | reflexivity | left; vm_compute; reflexivity].
Defined.
